(** * EOOS system interface over FreeRTOS: mutex, semaphore and thread resources

    A shallow embedding of [sys.MutexResource.hpp], [sys.SemaphoreResource.hpp]
    and [sys.ThreadResource.hpp].  The FreeRTOS kernel is an interface (a type
    class over an abstract kernel state); every call that leaves the layer is
    also appended to a trace, so that "no kernel call was made" is a statement
    about the trace.  A C++ member function is a state transformer over the
    object ([this]) and the world. *)

From Stdlib Require Import ZArith List Bool Lia.
Import ListNotations.
Local Open Scope Z_scope.

(* ================================================================== *)
(** * Part I: the model *)
(* ================================================================== *)

(** ** Machine integers *)

(** [static_cast<int32_t>] of an unsigned 32-bit value: two's complement. *)
Definition to_int32 (z : Z) : Z := (z + 2 ^ 31) mod 2 ^ 32 - 2 ^ 31.

(** [static_cast< ::UBaseType_t >] of an [int32_t]: reduction modulo 2^32. *)
Definition to_UBaseType (z : Z) : Z := z mod 2 ^ 32.

(** ** FreeRTOS types and constants (projdefs.h) *)

Definition BaseType_t := Z.
Definition UBaseType_t := Z.
Definition pdFALSE : BaseType_t := 0.
Definition pdTRUE : BaseType_t := 1.
Definition pdPASS : BaseType_t := pdTRUE.

(** [SemaphoreHandle_t] and [TaskHandle_t] are pointers; [NULL] is address 0. *)
Definition Handle := Z.
Definition NULL : Handle := 0.

Definition is_null (h : Handle) : bool := h =? NULL.

(** Calls that leave the layer: the FreeRTOS API functions used by the three
    resources, with the arguments the resources choose, and the entry point
    of the user's task. *)
Inductive Call : Type :=
| XSemaphoreCreateRecursiveMutexStatic
| XSemaphoreCreateCountingStatic (uxMaxCount uxInitialCount : UBaseType_t)
| XSemaphoreCreateBinaryStatic
| VSemaphoreDelete (h : Handle)
| XSemaphoreTakeRecursive (h : Handle)
| XSemaphoreGiveRecursive (h : Handle)
| XSemaphoreTake (h : Handle)
| XSemaphoreGive (h : Handle)
| XSemaphoreGiveFromISR (h : Handle)
| UxSemaphoreGetCount (h : Handle)
| XTaskCreateStatic (ulStackDepth : Z) (uxPriority : UBaseType_t)
| VTaskPrioritySet (h : Handle) (uxNewPriority : UBaseType_t)
| VTaskDelete (h : Handle)
| VTaskSuspend (h : Handle)
| TaskYIELD
| TaskStart.

(** The kernel as an external collaborator: each API function is a
    transformer of an abstract kernel state [K].

    - [xSemaphoreGiveFromISR h woken k] receives the current content of
      [*pxHigherPriorityTaskWoken] and returns the given-status together with
      the content of that variable after the call.
    - [taskYIELD k] gives the processor away; its boolean tells whether,
      before control came back to the caller, the kernel ran the entry
      function of the task the caller is polling up to its suspension. *)
Class FreeRTOS (K : Type) : Type := {
  xSemaphoreCreateRecursiveMutexStatic : K -> Handle * K;
  xSemaphoreCreateCountingStatic : UBaseType_t -> UBaseType_t -> K -> Handle * K;
  xSemaphoreCreateBinaryStatic : K -> Handle * K;
  vSemaphoreDelete : Handle -> K -> unit * K;
  xSemaphoreTakeRecursive : Handle -> K -> BaseType_t * K;
  xSemaphoreGiveRecursive : Handle -> K -> BaseType_t * K;
  xSemaphoreTake : Handle -> K -> BaseType_t * K;
  xSemaphoreGive : Handle -> K -> BaseType_t * K;
  xSemaphoreGiveFromISR : Handle -> BaseType_t -> K -> (BaseType_t * BaseType_t) * K;
  uxSemaphoreGetCount : Handle -> K -> UBaseType_t * K;
  xTaskCreateStatic : Z -> UBaseType_t -> K -> Handle * K;
  vTaskPrioritySet : Handle -> UBaseType_t -> K -> unit * K;
  vTaskDelete : Handle -> K -> unit * K;
  vTaskSuspend : Handle -> K -> unit * K;
  taskYIELD : K -> bool * K
}.

(** ** The world and the monad of member functions *)

Section Monad.

Context {K : Type}.

Record World : Type := mkWorld {
  kernel : K;
  trace : list Call
}.

(** A member function of a class with state [T] returning [A]. *)
Definition Method (T A : Type) : Type := T -> World -> A * T * World.

Definition ret {T A} (a : A) : Method T A := fun t w => (a, t, w).

Definition bind {T A B} (m : Method T A) (f : A -> Method T B) : Method T B :=
  fun t w => let '(a, t1, w1) := m t w in f a t1 w1.

(** Reads a data member. *)
Definition member {T A} (f : T -> A) : Method T A := fun t w => (f t, t, w).

(** Assigns data members. *)
Definition assign {T} (f : T -> T) : Method T unit := fun t w => (tt, f t, w).

(** Performs one call on the kernel and records it. *)
Definition kcall {T A} (c : Call) (f : K -> A * K) : Method T A :=
  fun t w =>
    let '(a, k1) := f (kernel w) in
    (a, t, {| kernel := k1; trace := trace w ++ [c] |}).

Definition result {T A} (r : A * T * World) : A := fst (fst r).
Definition object {T A} (r : A * T * World) : T := snd (fst r).
Definition world {T A} (r : A * T * World) : World := snd r.

End Monad.

Arguments World K : clear implicits.
Arguments Method K T A : clear implicits.

Declare Scope method_scope.
Delimit Scope method_scope with method.
Notation "x <- m ;; k" := (bind m (fun x => k))
  (at level 61, m at next level, right associativity) : method_scope.
Notation "m ;; k" := (bind m (fun _ => k))
  (at level 61, right associativity) : method_scope.
Local Open Scope method_scope.

(* ------------------------------------------------------------------ *)
(** ** sys.MutexResource.hpp *)
(* ------------------------------------------------------------------ *)

Module MutexResource.
Section Def.

Context {K : Type} {rtos : FreeRTOS K}.

(** Data members.  [buffer_] is storage handed to the kernel at creation
    and lives in the kernel state. *)
Record t : Type := mk {
  isConstructed_ : bool;
  mutex_ : Handle
}.

(** Modelled from the spec: the base class [NonCopyable<A>] (not part of
    these sources) holds the single validity flag; [isConstructed] reads it
    and [setConstructed] records the result of construction. *)
Definition isConstructed : Method K t bool := member isConstructed_.

Definition setConstructed (flag : bool) : Method K t unit :=
  assign (fun m => {| isConstructed_ := flag; mutex_ := mutex_ m |}).

Definition tryLock : Method K t bool := ret false.

Definition lock : Method K t bool :=
  c <- isConstructed ;;
  if c then
    h <- member mutex_ ;;
    isTaken <- kcall (XSemaphoreTakeRecursive h) (xSemaphoreTakeRecursive h) ;;
    ret (isTaken =? pdPASS)
  else ret false.

Definition unlock : Method K t bool :=
  c <- isConstructed ;;
  if c then
    h <- member mutex_ ;;
    isGiven <- kcall (XSemaphoreGiveRecursive h) (xSemaphoreGiveRecursive h) ;;
    ret (isGiven =? pdPASS)
  else ret false.

Definition initialize : Method K t bool :=
  h <- kcall XSemaphoreCreateRecursiveMutexStatic
             xSemaphoreCreateRecursiveMutexStatic ;;
  assign (fun m => {| isConstructed_ := isConstructed_ m; mutex_ := h |}) ;;
  ret (negb (is_null h)).

Definition deinitialize : Method K t unit :=
  h <- member mutex_ ;;
  if negb (is_null h) then kcall (VSemaphoreDelete h) (vSemaphoreDelete h)
  else ret tt.

Definition construct : Method K t bool :=
  c <- isConstructed ;;
  if negb c then ret false
  else
    i <- initialize ;;
    if negb i then ret false
    else ret true.

(** [MutexResource()]: [base] is the validity the base-class constructor
    leaves behind. *)
Definition ctor (base : bool) (w : World K) : t * World K :=
  let r := (isC <- construct ;; setConstructed isC)
             {| isConstructed_ := base; mutex_ := NULL |} w in
  (object r, world r).

(** [~MutexResource()]. *)
Definition dtor : Method K t unit := deinitialize.

End Def.
End MutexResource.

(* ------------------------------------------------------------------ *)
(** ** sys.SemaphoreResource.hpp *)
(* ------------------------------------------------------------------ *)

Module SemaphoreResource.

(** [enum Type]. *)
Inductive Type_ : Type := TYPE_COUNTING | TYPE_BINARY.

(** Max number of permits including the value. *)
Definition MAX_PERMITS : Z := 0x7FFFFFFF.

Section Def.

Context {K : Type} {rtos : FreeRTOS K}.

(** Data members.  [buffer_] is storage handed to the kernel at creation
    and lives in the kernel state. *)
Record t : Type := mk {
  isConstructed_ : bool;
  permits_ : Z;
  maximum_ : Z;
  sem_ : Handle;
  type_ : Type_;
  xHigherPriorityTaskWoken_ : BaseType_t
}.

Definition set_isConstructed_ (v : bool) (s : t) : t :=
  mk v (permits_ s) (maximum_ s) (sem_ s) (type_ s) (xHigherPriorityTaskWoken_ s).

Definition set_sem_ (v : Handle) (s : t) : t :=
  mk (isConstructed_ s) (permits_ s) (maximum_ s) v (type_ s)
     (xHigherPriorityTaskWoken_ s).

Definition set_xHigherPriorityTaskWoken_ (v : BaseType_t) (s : t) : t :=
  mk (isConstructed_ s) (permits_ s) (maximum_ s) (sem_ s) (type_ s) v.

(** Modelled from the spec: the base class [NonCopyable<A>] (not part of
    these sources) holds the single validity flag; [isConstructed] reads it
    and [setConstructed] records the result of construction. *)
Definition isConstructed : Method K t bool := member isConstructed_.

Definition setConstructed (flag : bool) : Method K t unit :=
  assign (set_isConstructed_ flag).

Definition acquire : Method K t bool :=
  c <- isConstructed ;;
  if c then
    h <- member sem_ ;;
    isTaken <- kcall (XSemaphoreTake h) (xSemaphoreTake h) ;;
    ret (isTaken =? pdPASS)
  else ret false.

Definition release : Method K t bool :=
  c <- isConstructed ;;
  if c then
    h <- member sem_ ;;
    isGiven <- kcall (XSemaphoreGive h) (xSemaphoreGive h) ;;
    ret (isGiven =? pdPASS)
  else ret false.

Definition releaseFromInterrupt : Method K t bool :=
  c <- isConstructed ;;
  if c then
    assign (set_xHigherPriorityTaskWoken_ pdFALSE) ;;
    h <- member sem_ ;;
    woken <- member xHigherPriorityTaskWoken_ ;;
    r <- kcall (XSemaphoreGiveFromISR h) (xSemaphoreGiveFromISR h woken) ;;
    assign (set_xHigherPriorityTaskWoken_ (snd r)) ;;
    ret (fst r =? pdPASS)
  else ret false.

Definition getCount : Method K t Z :=
  h <- member sem_ ;;
  count <- kcall (UxSemaphoreGetCount h) (uxSemaphoreGetCount h) ;;
  ret (to_int32 count).

Definition hasToSwitchContex : Method K t bool :=
  woken <- member xHigherPriorityTaskWoken_ ;;
  ret (negb (woken =? pdFALSE)).

Definition initialize : Method K t bool :=
  ty <- member type_ ;;
  match ty with
  | TYPE_COUNTING =>
      uxMaxCount <- member (fun s => to_UBaseType (maximum_ s)) ;;
      uxInitialCount <- member (fun s => to_UBaseType (permits_ s)) ;;
      h <- kcall (XSemaphoreCreateCountingStatic uxMaxCount uxInitialCount)
                 (xSemaphoreCreateCountingStatic uxMaxCount uxInitialCount) ;;
      assign (set_sem_ h)
  | TYPE_BINARY =>
      h <- kcall XSemaphoreCreateBinaryStatic xSemaphoreCreateBinaryStatic ;;
      assign (set_sem_ h)
  end ;;
  h <- member sem_ ;;
  ret (negb (is_null h)).

Definition deinitialize : Method K t unit :=
  h <- member sem_ ;;
  if negb (is_null h) then kcall (VSemaphoreDelete h) (vSemaphoreDelete h)
  else ret tt.

Definition construct : Method K t bool :=
  c <- isConstructed ;;
  if negb c then ret false
  else
    permits <- member permits_ ;;
    if permits <? 0 then ret false
    else
      maximum <- member maximum_ ;;
      if maximum <? 0 then ret false
      else if maximum >? MAX_PERMITS then ret false
      else
        i <- initialize ;;
        if negb i then ret false
        else ret true.

(** Both constructors end with the same body. *)
Definition constructed (init : t) (w : World K) : t * World K :=
  let r := (isC <- construct ;; setConstructed isC) init w in
  (object r, world r).

(** [SemaphoreResource(Type type, int32_t permits=0)]: [base] is the
    validity the base-class constructor leaves behind. *)
Definition ctor_type (base : bool) (type : Type_) (permits : Z)
  : World K -> t * World K :=
  constructed (mk base permits MAX_PERMITS NULL type pdFALSE).

(** [SemaphoreResource(int32_t permits, int32_t maximum)]. *)
Definition ctor_permits (base : bool) (permits maximum : Z)
  : World K -> t * World K :=
  constructed (mk base permits maximum NULL TYPE_COUNTING pdFALSE).

(** [~SemaphoreResource()]. *)
Definition dtor : Method K t unit := deinitialize.

(** The public operations, to speak about sequences of calls. *)
Inductive Op : Type :=
| OpAcquire
| OpRelease
| OpReleaseFromInterrupt
| OpGetCount
| OpHasToSwitchContex.

Definition forget {A} (r : A * t * World K) : t * World K := (object r, world r).

Definition exec_op (o : Op) (x : t * World K) : t * World K :=
  match o with
  | OpAcquire => forget (acquire (fst x) (snd x))
  | OpRelease => forget (release (fst x) (snd x))
  | OpReleaseFromInterrupt => forget (releaseFromInterrupt (fst x) (snd x))
  | OpGetCount => forget (getCount (fst x) (snd x))
  | OpHasToSwitchContex => forget (hasToSwitchContex (fst x) (snd x))
  end.

Definition exec_ops (os : list Op) (x : t * World K) : t * World K :=
  fold_left (fun y o => exec_op o y) os x.

Definition is_releaseFromInterrupt (o : Op) : bool :=
  match o with OpReleaseFromInterrupt => true | _ => false end.

End Def.
End SemaphoreResource.

(* ------------------------------------------------------------------ *)
(** ** sys.ThreadResource.hpp *)
(* ------------------------------------------------------------------ *)

(** Constants that [sys.ThreadResource.hpp] takes from [api.Thread.hpp] and
    from the FreeRTOS configuration, neither of which is part of these
    sources. *)
Class ThreadConfig : Type := {
  PRIORITY_WRONG : Z;
  PRIORITY_IDLE : Z;
  PRIORITY_MIN : Z;
  PRIORITY_NORM : Z;
  PRIORITY_MAX : Z;
  configMAX_PRIORITIES : Z
}.

Module ThreadResource.

(** Modelled from the spec: [api::Thread::Status] is declared in
    [api.Thread.hpp], which is not part of these sources; the lifecycle has
    the three states the resource assigns. *)
Inductive Status : Type := STATUS_NEW | STATUS_RUNNABLE | STATUS_DEAD.

Definition Status_eqb (a b : Status) : bool :=
  match a, b with
  | STATUS_NEW, STATUS_NEW => true
  | STATUS_RUNNABLE, STATUS_RUNNABLE => true
  | STATUS_DEAD, STATUS_DEAD => true
  | _, _ => false
  end.

(** sys.Definitions.hpp *)
Definition EOOS_GLOBAL_SYS_FREERTOS_TASK_STACK_SIZE : Z := 2048.

(** Number of stack elements of uint32_t. *)
Definition THREAD_STACK_DEPTH : Z := EOOS_GLOBAL_SYS_FREERTOS_TASK_STACK_SIZE / 4.

Section Def.

Context {K : Type} {rtos : FreeRTOS K} {cfg : ThreadConfig}.

(** The user's [api::Task]: its validity and the effect of its [start()]
    entry point on the kernel. *)
Record Task : Type := mkTask {
  task_isConstructed : bool;
  task_start : K -> unit * K
}.

(** Data members.  [task_] is a pointer ([None] is [NULLPTR]); [tcb_] and
    [stack_] are storage handed to the kernel at task creation and live in
    the kernel state. *)
Record t : Type := mk {
  isConstructed_ : bool;
  task_ : option Task;
  status_ : Status;
  priority_ : Z;
  thread_ : Handle
}.

Definition set_isConstructed_ (v : bool) (x : t) : t :=
  mk v (task_ x) (status_ x) (priority_ x) (thread_ x).

Definition set_status_ (v : Status) (x : t) : t :=
  mk (isConstructed_ x) (task_ x) v (priority_ x) (thread_ x).

Definition set_priority_ (v : Z) (x : t) : t :=
  mk (isConstructed_ x) (task_ x) (status_ x) v (thread_ x).

Definition set_thread_ (v : Handle) (x : t) : t :=
  mk (isConstructed_ x) (task_ x) (status_ x) (priority_ x) v.

(** Modelled from the spec: the base class [NonCopyable<A>] (not part of
    these sources) holds the single validity flag; [isConstructed] reads it
    and [setConstructed] records the result of construction. *)
Definition isConstructed : Method K t bool := member isConstructed_.

Definition setConstructed (flag : bool) : Method K t unit :=
  assign (set_isConstructed_ flag).

Definition convertPriority (priority : Z) : UBaseType_t := to_UBaseType priority.

Definition isPriority (priority : Z) : bool :=
  if (PRIORITY_MIN <=? priority) && (priority <=? PRIORITY_MAX) then true
  else if priority =? PRIORITY_IDLE then true
  else false.

Definition execute : Method K t bool :=
  c <- isConstructed ;;
  if negb c then ret false
  else
    s <- member status_ ;;
    if negb (Status_eqb s STATUS_NEW) then ret false
    else
      uxPriority <- member (fun x => convertPriority (priority_ x)) ;;
      h <- kcall (XTaskCreateStatic THREAD_STACK_DEPTH uxPriority)
                 (xTaskCreateStatic THREAD_STACK_DEPTH uxPriority) ;;
      assign (set_thread_ h) ;;
      if is_null h then ret false
      else
        assign (set_status_ STATUS_RUNNABLE) ;;
        ret true.

Definition getPriority : Method K t Z :=
  c <- isConstructed ;;
  if c then member priority_ else ret PRIORITY_WRONG.

Definition setPriority (priority : Z) : Method K t bool :=
  c <- isConstructed ;;
  (if c && isPriority priority then
     s <- member status_ ;;
     match s with
     | STATUS_RUNNABLE =>
         h <- member thread_ ;;
         kcall (VTaskPrioritySet h (convertPriority priority))
               (vTaskPrioritySet h (convertPriority priority)) ;;
         assign (set_priority_ priority)
     | STATUS_NEW => assign (set_priority_ priority)
     | STATUS_DEAD => ret tt
     end
   else ret tt) ;;
  ret false.

Definition construct : Method K t bool :=
  res <- (c <- isConstructed ;;
          if negb c then ret false
          else if PRIORITY_MAX >=? configMAX_PRIORITIES then ret false
          else
            tk <- member task_ ;;
            match tk with
            | None => ret false
            | Some task =>
                if negb (task_isConstructed task) then ret false
                else
                  assign (set_status_ STATUS_NEW) ;;
                  ret true
            end) ;;
  (if negb res then assign (set_status_ STATUS_DEAD) else ret tt) ;;
  ret res.

(** [start(void* pvParameters)] for a non-null [pvParameters], which points
    to a [ThreadResource]; a constructed thread always has a task, see
    [construct].  The suspension that ends the function is part of it. *)
Definition start_thread : Method K t unit :=
  c <- isConstructed ;;
  (if negb c then ret tt
   else
     tk <- member task_ ;;
     match tk with
     | None => ret tt
     | Some task =>
         if negb (task_isConstructed task) then ret tt
         else
           kcall TaskStart (task_start task) ;;
           assign (set_status_ STATUS_DEAD)
     end) ;;
  kcall (VTaskSuspend NULL) (vTaskSuspend NULL).

(** [start(void* pvParameters)]: the entry function given to the kernel. *)
Definition start (pvParameters : option t) (w : World K) : option t * World K :=
  match pvParameters with
  | None =>
      let r := kcall (T := unit) (VTaskSuspend NULL) (vTaskSuspend NULL) tt w in
      (None, world r)
  | Some thread =>
      let r := start_thread thread w in
      (Some (object r), world r)
  end.

(** The polling loop of [join()].  Each round reads the status and yields;
    while the caller is away the kernel may run this thread's entry
    function, which is the only writer of the status during the loop.
    [None] is a loop that has not ended within [fuel] rounds. *)
Fixpoint join_loop (fuel : nat) : Method K t (option bool) :=
  s <- member status_ ;;
  if Status_eqb s STATUS_DEAD then ret (Some true)
  else
    match fuel with
    | O => ret None
    | S n =>
        ran <- kcall TaskYIELD taskYIELD ;;
        (if ran : bool then start_thread else ret tt) ;;
        join_loop n
    end.

Definition join (fuel : nat) : Method K t (option bool) :=
  c <- isConstructed ;;
  s <- member status_ ;;
  if c && Status_eqb s STATUS_RUNNABLE then join_loop fuel
  else ret (Some false).

(** [ThreadResource(api::Task& task)]: [base] is the validity the
    base-class constructor leaves behind. *)
Definition ctor (base : bool) (task : Task) (w : World K) : t * World K :=
  let r := (isC <- construct ;; setConstructed isC)
             (mk base (Some task) STATUS_NEW PRIORITY_NORM NULL) w in
  (object r, world r).

(** [~ThreadResource()]. *)
Definition dtor : Method K t unit :=
  h <- member thread_ ;;
  if negb (is_null h) then
    kcall (VTaskDelete h) (vTaskDelete h) ;;
    assign (set_status_ STATUS_DEAD)
  else ret tt.

(** The operations that can act on a thread object: the public member
    functions, the entry function run by the kernel, and destruction. *)
Inductive Op : Type :=
| OpExecute
| OpJoin (fuel : nat)
| OpGetPriority
| OpSetPriority (priority : Z)
| OpStart
| OpDestroy.

Definition forget {A} (r : A * t * World K) : t * World K := (object r, world r).

Definition exec_op (o : Op) (x : t * World K) : t * World K :=
  match o with
  | OpExecute => forget (execute (fst x) (snd x))
  | OpJoin fuel => forget (join fuel (fst x) (snd x))
  | OpGetPriority => forget (getPriority (fst x) (snd x))
  | OpSetPriority p => forget (setPriority p (fst x) (snd x))
  | OpStart => forget (start_thread (fst x) (snd x))
  | OpDestroy => forget (dtor (fst x) (snd x))
  end.

(** [start] is private and its address is only given to
    [xTaskCreateStatic]: the kernel runs it for a task it has created. *)
Definition enabled (o : Op) (x : t) : bool :=
  match o with
  | OpStart => negb (is_null (thread_ x))
  | _ => true
  end.

(** States a thread object can be in: after the constructor, and after any
    enabled operation on such a state. *)
Inductive reachable : t * World K -> Prop :=
| reachable_ctor base task w : reachable (ctor base task w)
| reachable_op o x :
    reachable x -> enabled o (fst x) = true -> reachable (exec_op o x).

(** The edges of the lifecycle. *)
Definition edge (a b : Status) : bool :=
  match a, b with
  | STATUS_NEW, STATUS_RUNNABLE => true
  | STATUS_RUNNABLE, STATUS_DEAD => true
  | _, _ => false
  end.

(** A thread that has a kernel handle has left [STATUS_NEW]. *)
Definition started (x : t) : Prop :=
  is_null (thread_ x) = false -> status_ x <> STATUS_NEW.

End Def.
End ThreadResource.

(* ------------------------------------------------------------------ *)
(** ** A scripted kernel and a configuration, for concrete runs *)
(* ------------------------------------------------------------------ *)

(** The kernel state is the list of answers still to be given; a call that
    returns a value takes the next answer ([0] once the script is over). *)
Definition answer (script : list Z) : Z * list Z :=
  match script with
  | [] => (0, [])
  | a :: rest => (a, rest)
  end.

Definition silent (script : list Z) : unit * list Z := (tt, script).

#[export] Instance Scripted : FreeRTOS (list Z) := {
  xSemaphoreCreateRecursiveMutexStatic := answer;
  xSemaphoreCreateCountingStatic := fun _ _ => answer;
  xSemaphoreCreateBinaryStatic := answer;
  vSemaphoreDelete := fun _ => silent;
  xSemaphoreTakeRecursive := fun _ => answer;
  xSemaphoreGiveRecursive := fun _ => answer;
  xSemaphoreTake := fun _ => answer;
  xSemaphoreGive := fun _ => answer;
  xSemaphoreGiveFromISR := fun _ woken script =>
    let '(given, s1) := answer script in
    let '(unblocked, s2) := answer s1 in
    ((given, if unblocked =? 0 then woken else pdTRUE), s2);
  uxSemaphoreGetCount := fun _ => answer;
  xTaskCreateStatic := fun _ _ => answer;
  vTaskPrioritySet := fun _ _ => silent;
  vTaskDelete := fun _ => silent;
  vTaskSuspend := fun _ => silent;
  taskYIELD := fun script =>
    let '(ran, s1) := answer script in (negb (ran =? 0), s1)
}.

(** A world whose kernel will give the answers of [script]. *)
Definition boot (script : list Z) : World (list Z) :=
  {| kernel := script; trace := [] |}.

(** A configuration with ten priority levels above idle. *)
#[export] Instance TenLevels : ThreadConfig := {
  PRIORITY_WRONG := -1;
  PRIORITY_IDLE := 0;
  PRIORITY_MIN := 1;
  PRIORITY_NORM := 5;
  PRIORITY_MAX := 10;
  configMAX_PRIORITIES := 16
}.

(** A valid task whose body does nothing to the kernel. *)
Definition idle_task : ThreadResource.Task (K := list Z) :=
  ThreadResource.mkTask true silent.

(** A semaphore constructed with negative permits, over a kernel that would
    answer [7] to the next call. *)
Definition negative_semaphore : SemaphoreResource.t * World (list Z) :=
  SemaphoreResource.ctor_permits true (-1) 1 (boot [7]).

(** Binary semaphores constructed with permits [-1] and [0], over a kernel
    that would give handle [9] and then let a take pass. *)
Definition binary_minus_one : SemaphoreResource.t * World (list Z) :=
  SemaphoreResource.ctor_type true SemaphoreResource.TYPE_BINARY (-1) (boot [9; 1]).

Definition binary_zero : SemaphoreResource.t * World (list Z) :=
  SemaphoreResource.ctor_type true SemaphoreResource.TYPE_BINARY 0 (boot [9; 1]).

(** A thread for [idle_task], over a kernel that has no task control block
    for the first creation and gives handle [5] for the second. *)
Definition fresh_thread : ThreadResource.t * World (list Z) :=
  ThreadResource.ctor true idle_task (boot [0; 5]).

(** Unfolds the monad of member functions. *)
Ltac run :=
  cbv beta delta [bind ret member assign kcall result object world] in *;
  cbn beta iota in *.

(* ------------------------------------------------------------------ *)
(** ** Sequences of operations on a mutex, a semaphore and a thread *)
(* ------------------------------------------------------------------ *)

Module MutexRun.
Section Def.

Context {K : Type} {rtos : FreeRTOS K}.

(** The public operations of [MutexResource]. *)
Inductive Op : Type := OpTryLock | OpLock | OpUnlock.

Definition forget {A} (r : A * MutexResource.t * World K)
  : MutexResource.t * World K := (object r, world r).

Definition exec_op (o : Op) (x : MutexResource.t * World K)
  : MutexResource.t * World K :=
  match o with
  | OpTryLock => forget (MutexResource.tryLock (fst x) (snd x))
  | OpLock => forget (MutexResource.lock (fst x) (snd x))
  | OpUnlock => forget (MutexResource.unlock (fst x) (snd x))
  end.

Definition exec_ops (os : list Op) (x : MutexResource.t * World K)
  : MutexResource.t * World K :=
  fold_left (fun y o => exec_op o y) os x.

(** The kernel calls one operation is expected to add to the trace, for a
    mutex with validity [valid] and handle [h]. *)
Definition calls (valid : bool) (h : Handle) (o : Op) : list Call :=
  if valid then
    match o with
    | OpTryLock => []
    | OpLock => [XSemaphoreTakeRecursive h]
    | OpUnlock => [XSemaphoreGiveRecursive h]
    end
  else [].

End Def.
End MutexRun.

Module SemaphoreRun.

(** The kernel calls one operation is expected to add to the trace, for a
    semaphore with validity [valid] and handle [h]. *)
Definition calls (valid : bool) (h : Handle) (o : SemaphoreResource.Op)
  : list Call :=
  match o with
  | SemaphoreResource.OpAcquire => if valid then [XSemaphoreTake h] else []
  | SemaphoreResource.OpRelease => if valid then [XSemaphoreGive h] else []
  | SemaphoreResource.OpReleaseFromInterrupt =>
      if valid then [XSemaphoreGiveFromISR h] else []
  | SemaphoreResource.OpGetCount => [UxSemaphoreGetCount h]
  | SemaphoreResource.OpHasToSwitchContex => []
  end.

End SemaphoreRun.

Module ThreadRun.
Section Def.

Context {K : Type} {rtos : FreeRTOS K} {cfg : ThreadConfig}.

(** [reaches x y]: some sequence of enabled operations leads from [x] to
    [y]. *)
Inductive reaches (x : ThreadResource.t * World K)
  : ThreadResource.t * World K -> Prop :=
| reaches_here : reaches x x
| reaches_op o y :
    reaches x y -> ThreadResource.enabled o (fst y) = true ->
    reaches x (ThreadResource.exec_op o y).

(** A valid thread holds a valid task. *)
Definition has_task (x : ThreadResource.t (K := K)) : Prop :=
  ThreadResource.isConstructed_ x = true ->
  exists task, ThreadResource.task_ x = Some task /\
               ThreadResource.task_isConstructed task = true.

End Def.
End ThreadRun.

(* ------------------------------------------------------------------ *)
(** ** sys.SchedulerRoutineTimer.cpp and sys.SchedulerRoutineSvcall.cpp *)
(* ------------------------------------------------------------------ *)

(** The two kernel functions the interrupt routines call. *)
Inductive PortCall : Type := XTaskIncrementTick | VTaskSwitchContext.

Class FreeRTOSPort (K : Type) : Type := {
  xTaskIncrementTick : K -> BaseType_t * K;
  vTaskSwitchContext : K -> unit * K
}.

Module SchedulerRoutine.
Section Def.

Context {K : Type} {port : FreeRTOSPort K}.

(** The kernel state and the calls made on it so far. *)
Definition Port : Type := K * list PortCall.

Definition pcall {A} (c : PortCall) (f : K -> A * K) (s : Port) : A * Port :=
  let '(a, k1) := f (fst s) in (a, (k1, snd s ++ [c])).

(** Both routines have the validity flag of [NonCopyable] as their only
    data member. *)
Record t : Type := mk { isConstructed_ : bool }.

(** [SchedulerRoutineTimer::construct] and
    [SchedulerRoutineSvcall::construct]. *)
Definition construct (r : t) : bool :=
  if negb (isConstructed_ r) then false else true.

(** The constructors: [base] is the validity the base-class constructor
    leaves behind. *)
Definition ctor (base : bool) : t := mk (construct (mk base)).

(** [SchedulerRoutineTimer::start]. *)
Definition timer_start (r : t) (s : Port) : Port :=
  let '(xSwitchRequired, s1) := pcall XTaskIncrementTick xTaskIncrementTick s in
  if xSwitchRequired =? pdTRUE
  then snd (pcall VTaskSwitchContext vTaskSwitchContext s1)
  else s1.

(** [SchedulerRoutineSvcall::start]. *)
Definition svcall_start (r : t) (s : Port) : Port :=
  snd (pcall VTaskSwitchContext vTaskSwitchContext s).

(** [n] interrupts in a row. *)
Fixpoint interrupts (start : t -> Port -> Port) (r : t) (n : nat) (s : Port)
  : Port :=
  match n with
  | O => s
  | S m => interrupts start r m (start r s)
  end.

Definition is_tick (c : PortCall) : bool :=
  match c with XTaskIncrementTick => true | VTaskSwitchContext => false end.

Definition is_switch (c : PortCall) : bool :=
  match c with XTaskIncrementTick => false | VTaskSwitchContext => true end.

End Def.
End SchedulerRoutine.

(** A scripted port: the kernel state is the list of answers
    [xTaskIncrementTick] will give. *)
#[export] Instance ScriptedPort : FreeRTOSPort (list Z) := {
  xTaskIncrementTick := answer;
  vTaskSwitchContext := silent
}.

(** A kernel that always has a handle to give and lets every take and give
    pass, but never runs the entry function of a polled thread. *)
Definition always {A} (a : A) (k : unit) : A * unit := (a, k).

#[export] Instance Starving : FreeRTOS unit := {
  xSemaphoreCreateRecursiveMutexStatic := always 1;
  xSemaphoreCreateCountingStatic := fun _ _ => always 1;
  xSemaphoreCreateBinaryStatic := always 1;
  vSemaphoreDelete := fun _ => always tt;
  xSemaphoreTakeRecursive := fun _ => always pdPASS;
  xSemaphoreGiveRecursive := fun _ => always pdPASS;
  xSemaphoreTake := fun _ => always pdPASS;
  xSemaphoreGive := fun _ => always pdPASS;
  xSemaphoreGiveFromISR := fun _ woken => always (pdPASS, woken);
  uxSemaphoreGetCount := fun _ => always 0;
  xTaskCreateStatic := fun _ _ => always 1;
  vTaskPrioritySet := fun _ _ => always tt;
  vTaskDelete := fun _ => always tt;
  vTaskSuspend := fun _ => always tt;
  taskYIELD := always false
}.

(** A valid task for the starving kernel. *)
Definition starving_task : ThreadResource.Task (K := unit) :=
  ThreadResource.mkTask true (always tt).

(** A thread for [idle_task] that has been executed with handle [5], over a
    kernel whose next yield runs the entry function. *)
Definition runnable_thread : ThreadResource.t * World (list Z) :=
  ThreadResource.exec_op ThreadResource.OpExecute
    (ThreadResource.ctor true idle_task (boot [5; 1])).

(** An executed thread over the starving kernel. *)
Definition starving_thread : ThreadResource.t * World unit :=
  ThreadResource.exec_op ThreadResource.OpExecute
    (ThreadResource.ctor true starving_task {| kernel := tt; trace := [] |}).

(** A counting semaphore with more permits than its maximum, over a kernel
    that gives handle [7]. *)
Definition overfull_semaphore : SemaphoreResource.t * World (list Z) :=
  SemaphoreResource.ctor_permits true 5 2 (boot [7; 1; 1; 1; 3]).

(* ------------------------------------------------------------------ *)
(** ** [execute()] on a preemptive kernel *)
(* ------------------------------------------------------------------ *)

Module ThreadPreempt.
Section Def.

Context {K : Type} {rtos : FreeRTOS K} {cfg : ThreadConfig}.

(** [ThreadResource::execute] up to the return of [xTaskCreateStatic]
    (lines 173-198).  The kernel is preemptive: when the new task has a
    higher priority than its creator it runs at once, inside the creation
    call, and [preempted] tells that its entry function [start] ran to its
    suspension before the call returned; [thread_] and [status_] have not
    been written by [execute] at that point.  [None] stands for one of the
    two early exits. *)
Definition execute_create (preempted : bool)
  : Method K (ThreadResource.t (K := K)) (option Handle) :=
  c <- ThreadResource.isConstructed ;;
  if negb c then ret None
  else
    s <- member ThreadResource.status_ ;;
    if negb (ThreadResource.Status_eqb s ThreadResource.STATUS_NEW) then ret None
    else
      uxPriority <- member (fun x =>
        ThreadResource.convertPriority (ThreadResource.priority_ x)) ;;
      h <- kcall (XTaskCreateStatic ThreadResource.THREAD_STACK_DEPTH uxPriority)
                 (xTaskCreateStatic ThreadResource.THREAD_STACK_DEPTH uxPriority) ;;
      (if preempted && negb (is_null h) then ThreadResource.start_thread
       else ret tt) ;;
      ret (Some h).

(** [ThreadResource::execute] from the assignment of [thread_] on (lines
    190-206). *)
Definition execute_finish (created : option Handle)
  : Method K (ThreadResource.t (K := K)) bool :=
  match created with
  | None => ret false
  | Some h =>
      assign (ThreadResource.set_thread_ h) ;;
      if is_null h then ret false
      else
        assign (ThreadResource.set_status_ ThreadResource.STATUS_RUNNABLE) ;;
        ret true
  end.

(** The whole of [execute], with or without the preemption. *)
Definition execute_on_kernel (preempted : bool)
  : Method K (ThreadResource.t (K := K)) bool :=
  created <- execute_create preempted ;;
  execute_finish created.

End Def.
End ThreadPreempt.

(** A new thread for [idle_task] over a kernel that gives handle [5]. *)
Definition new_thread : ThreadResource.t * World (list Z) :=
  ThreadResource.ctor true idle_task (boot [5]).

(** [new_thread] when the created task has preempted [execute]: after the
    creation call, and after the whole of [execute]. *)
Definition new_thread_created
  : option Handle * ThreadResource.t * World (list Z) :=
  ThreadPreempt.execute_create true (fst new_thread) (snd new_thread).

Definition new_thread_executed : bool * ThreadResource.t * World (list Z) :=
  ThreadPreempt.execute_finish (result new_thread_created)
    (object new_thread_created) (world new_thread_created).

(* ================================================================== *)
(** * Part II: properties *)
(* ================================================================== *)

(** ** Mutex *)

Section MutexFacts.

Context {K : Type} {rtos : FreeRTOS K}.
Import MutexResource.

(** An invalid mutex refuses [lock] and [unlock] and leaves the kernel
    alone. *)
Lemma mutex_lock_gate (m : t) (w : World K) :
  isConstructed_ m = false -> lock m w = (false, m, w).
Proof. intros H. unfold lock, isConstructed. run. now rewrite H. Qed.

Lemma mutex_unlock_gate (m : t) (w : World K) :
  isConstructed_ m = false -> unlock m w = (false, m, w).
Proof. intros H. unfold unlock, isConstructed. run. now rewrite H. Qed.

End MutexFacts.

(** ** Semaphore *)

Section SemaphoreFacts.

Context {K : Type} {rtos : FreeRTOS K}.
Import SemaphoreResource.

Lemma acquire_gate (s : t) (w : World K) :
  isConstructed_ s = false -> acquire s w = (false, s, w).
Proof. intros H. unfold acquire, isConstructed. run. now rewrite H. Qed.

Lemma release_gate (s : t) (w : World K) :
  isConstructed_ s = false -> release s w = (false, s, w).
Proof. intros H. unfold release, isConstructed. run. now rewrite H. Qed.

Lemma releaseFromInterrupt_gate (s : t) (w : World K) :
  isConstructed_ s = false -> releaseFromInterrupt s w = (false, s, w).
Proof.
  intros H. unfold releaseFromInterrupt, isConstructed. run. now rewrite H.
Qed.

(** [getCount] has no gate: whatever the validity flag says, it asks the
    kernel about [sem_]. *)
Lemma getCount_calls_kernel (s : t) (w : World K) :
  getCount s w =
  (to_int32 (fst (uxSemaphoreGetCount (sem_ s) (kernel w))), s,
   {| kernel := snd (uxSemaphoreGetCount (sem_ s) (kernel w));
      trace := trace w ++ [UxSemaphoreGetCount (sem_ s)] |}).
Proof.
  unfold getCount. run. now destruct (uxSemaphoreGetCount (sem_ s) (kernel w)).
Qed.

(** [hasToSwitchContex] is a pure reading of the flag. *)
Lemma hasToSwitchContex_reads (s : t) (w : World K) :
  hasToSwitchContex s w =
  (negb (xHigherPriorityTaskWoken_ s =? pdFALSE), s, w).
Proof. reflexivity. Qed.

(** No operation writes the validity flag. *)
Lemma exec_op_validity (o : Op) (x : t * World K) :
  isConstructed_ (fst (exec_op o x)) = isConstructed_ (fst x).
Proof.
  destruct x as [s w]. destruct o; cbn [exec_op fst snd]; unfold forget.
  - unfold acquire, isConstructed. run.
    destruct (isConstructed_ s) eqn:E; cbn; auto.
    destruct (xSemaphoreTake (sem_ s) (kernel w)); cbn; auto.
  - unfold release, isConstructed. run.
    destruct (isConstructed_ s) eqn:E; cbn; auto.
    destruct (xSemaphoreGive (sem_ s) (kernel w)); cbn; auto.
  - unfold releaseFromInterrupt, isConstructed. run.
    destruct (isConstructed_ s) eqn:E; cbn; auto.
    destruct (xSemaphoreGiveFromISR (sem_ s) pdFALSE (kernel w)); cbn; auto.
  - rewrite getCount_calls_kernel. reflexivity.
  - reflexivity.
Qed.

Lemma exec_ops_validity (os : list Op) (x : t * World K) :
  isConstructed_ (fst (exec_ops os x)) = isConstructed_ (fst x).
Proof.
  revert x. induction os as [|o os IH]; intros x; cbn; [reflexivity|].
  unfold exec_ops in IH. rewrite IH. apply exec_op_validity.
Qed.

(** What the constructor body leaves as validity: the base flag, the three
    argument checks, and a kernel handle. *)
Lemma constructed_validity (init : t) (w : World K) :
  isConstructed_ (fst (constructed init w)) =
  isConstructed_ init
  && negb (permits_ init <? 0)
  && negb (maximum_ init <? 0)
  && negb (maximum_ init >? MAX_PERMITS)
  && negb (is_null (sem_ (object (initialize init w)))).
Proof.
  unfold constructed, construct, setConstructed, isConstructed. run.
  destruct (isConstructed_ init); cbn; [|reflexivity].
  destruct (permits_ init <? 0); cbn; [reflexivity|].
  destruct (maximum_ init <? 0); cbn; [reflexivity|].
  destruct (maximum_ init >? MAX_PERMITS); cbn; [reflexivity|].
  unfold initialize. run.
  destruct (type_ init); run.
  - destruct (xSemaphoreCreateCountingStatic _ _ _) as [h k1]; cbn.
    destruct (is_null h); reflexivity.
  - destruct (xSemaphoreCreateBinaryStatic _) as [h k1]; cbn.
    destruct (is_null h); reflexivity.
Qed.

(** The handle [initialize] stores is the one the kernel returns for the
    semaphore's type. *)
Lemma initialize_handle (init : t) (w : World K) :
  sem_ (object (initialize init w)) =
  match type_ init with
  | TYPE_COUNTING =>
      fst (xSemaphoreCreateCountingStatic (to_UBaseType (maximum_ init))
             (to_UBaseType (permits_ init)) (kernel w))
  | TYPE_BINARY => fst (xSemaphoreCreateBinaryStatic (kernel w))
  end.
Proof.
  unfold initialize. run. destruct (type_ init); run.
  - now destruct (xSemaphoreCreateCountingStatic _ _ _).
  - now destruct (xSemaphoreCreateBinaryStatic _).
Qed.

(** An invalid semaphore stays invalid, so [acquire] and [release] keep
    failing whatever was called in between. *)
Lemma invalid_forever (x : t * World K) (os : list Op) :
  isConstructed_ (fst x) = false ->
  let y := exec_ops os x in
  acquire (fst y) (snd y) = (false, fst y, snd y) /\
  release (fst y) (snd y) = (false, fst y, snd y).
Proof.
  intros H y.
  assert (isConstructed_ (fst y) = false) as Hy
    by (unfold y; now rewrite exec_ops_validity).
  split; [now apply acquire_gate | now apply release_gate].
Qed.

(** C2.  A semaphore constructed with permits [p] and maximum [m] where
    [p < 0], [m < 0] or [m > MAX_PERMITS] is invalid, and after any sequence
    of operations [acquire] and [release] still return false (without a
    kernel call); with arguments in range, over a valid base, construction
    succeeds exactly when the kernel returns a handle for the counting
    semaphore. *)
Theorem semaphore_construction_validity (base : bool) (p m : Z) (w : World K) :
  (p < 0 \/ m < 0 \/ m > MAX_PERMITS ->
     isConstructed_ (fst (ctor_permits base p m w)) = false /\
     forall os : list Op,
       let y := exec_ops os (ctor_permits base p m w) in
       acquire (fst y) (snd y) = (false, fst y, snd y) /\
       release (fst y) (snd y) = (false, fst y, snd y))
  /\
  (~ (p < 0 \/ m < 0 \/ m > MAX_PERMITS) -> base = true ->
     (isConstructed_ (fst (ctor_permits base p m w)) = true <->
      fst (xSemaphoreCreateCountingStatic (to_UBaseType m) (to_UBaseType p)
             (kernel w)) <> NULL)).
Proof.
  assert (isConstructed_ (fst (ctor_permits base p m w)) =
          base && negb (p <? 0) && negb (m <? 0) && negb (m >? MAX_PERMITS)
          && negb (is_null
               (fst (xSemaphoreCreateCountingStatic (to_UBaseType m)
                       (to_UBaseType p) (kernel w))))) as E.
  { unfold ctor_permits. rewrite constructed_validity, initialize_handle.
    reflexivity. }
  split.
  - intros Hbad.
    assert (isConstructed_ (fst (ctor_permits base p m w)) = false) as Hinv.
    { rewrite E.
      destruct Hbad as [Hp | [Hm | Hm]].
      - apply Z.ltb_lt in Hp. rewrite Hp.
        now rewrite andb_false_r.
      - apply Z.ltb_lt in Hm. rewrite Hm. cbn.
        now rewrite !andb_false_r.
      - apply Z.gtb_gt in Hm. rewrite Hm. cbn.
        now rewrite !andb_false_r. }
    split; [exact Hinv|].
    intros os. now apply invalid_forever.
  - intros Hok Hbase. rewrite E, Hbase.
    assert ((p <? 0) = false) as -> by (apply Z.ltb_ge; lia).
    assert ((m <? 0) = false) as -> by (apply Z.ltb_ge; lia).
    assert ((m >? MAX_PERMITS) = false) as ->.
    { rewrite Z.gtb_ltb. apply Z.ltb_ge. lia. }
    cbn. unfold is_null.
    destruct (Z.eqb_spec
      (fst (xSemaphoreCreateCountingStatic (to_UBaseType m) (to_UBaseType p)
              (kernel w))) NULL) as [e | n]; cbn.
    + split; [discriminate | intros Hn; now elim Hn].
    + split; auto.
Qed.

(** The same for the constructor that takes a type: the maximum is
    [MAX_PERMITS], negative permits make the object invalid for either
    type, and otherwise validity is a kernel handle of that type. *)
Lemma semaphore_typed_construction_validity
    (base : bool) (ty : Type_) (p : Z) (w : World K) :
  isConstructed_ (fst (ctor_type base ty p w)) =
  base && negb (p <? 0)
  && negb (is_null
       match ty with
       | TYPE_COUNTING =>
           fst (xSemaphoreCreateCountingStatic (to_UBaseType MAX_PERMITS)
                  (to_UBaseType p) (kernel w))
       | TYPE_BINARY => fst (xSemaphoreCreateBinaryStatic (kernel w))
       end).
Proof.
  unfold ctor_type. rewrite constructed_validity, initialize_handle.
  cbn [isConstructed_ permits_ maximum_ type_].
  destruct base, (p <? 0), ty; reflexivity.
Qed.

(** A binary semaphore constructed with non-negative permits differs from
    the one constructed with zero only in the stored [permits_], which no
    operation reads. *)
Lemma binary_ignores_nonnegative_permits (base : bool) (p : Z) (w : World K) :
  0 <= p ->
  let a := ctor_type base TYPE_BINARY p w in
  let b := ctor_type base TYPE_BINARY 0 w in
  isConstructed_ (fst a) = isConstructed_ (fst b) /\
  sem_ (fst a) = sem_ (fst b) /\
  xHigherPriorityTaskWoken_ (fst a) = xHigherPriorityTaskWoken_ (fst b) /\
  snd a = snd b.
Proof.
  intros Hp. cbv zeta.
  unfold ctor_type, constructed, construct, setConstructed, isConstructed,
    initialize.
  run.
  assert ((p <? 0) = false) as Hp0 by (apply Z.ltb_ge; lia).
  destruct base; cbn; auto.
  rewrite Hp0. cbn.
  destruct (xSemaphoreCreateBinaryStatic (kernel w)) as [h k1]; cbn.
  destruct (is_null h); cbn; auto.
Qed.

(** Only [releaseFromInterrupt] writes the woken flag. *)
Lemma exec_op_keeps_flag (o : Op) (x : t * World K) :
  is_releaseFromInterrupt o = false ->
  xHigherPriorityTaskWoken_ (fst (exec_op o x)) =
  xHigherPriorityTaskWoken_ (fst x).
Proof.
  destruct x as [s w]. destruct o; cbn [exec_op fst snd is_releaseFromInterrupt];
    unfold forget; intros Ho; try discriminate.
  - unfold acquire, isConstructed. run.
    destruct (isConstructed_ s); cbn; auto.
    destruct (xSemaphoreTake (sem_ s) (kernel w)); cbn; auto.
  - unfold release, isConstructed. run.
    destruct (isConstructed_ s); cbn; auto.
    destruct (xSemaphoreGive (sem_ s) (kernel w)); cbn; auto.
  - rewrite getCount_calls_kernel. reflexivity.
  - reflexivity.
Qed.

Lemma exec_ops_keep_flag (os : list Op) (x : t * World K) :
  forallb (fun o => negb (is_releaseFromInterrupt o)) os = true ->
  xHigherPriorityTaskWoken_ (fst (exec_ops os x)) =
  xHigherPriorityTaskWoken_ (fst x).
Proof.
  revert x. induction os as [|o os IH]; intros x H; cbn in *; [reflexivity|].
  apply andb_prop in H. destruct H as [Ho Hos].
  unfold exec_ops in IH. rewrite IH by exact Hos.
  apply exec_op_keeps_flag. now destruct (is_releaseFromInterrupt o).
Qed.



End SemaphoreFacts.

(** ** Thread *)

Section ThreadFacts.

Context {K : Type} {rtos : FreeRTOS K} {cfg : ThreadConfig}.
Import ThreadResource.

Lemma Status_eqb_eq (a b : Status) : Status_eqb a b = true <-> a = b.
Proof. destruct a, b; cbn; split; intros H; congruence. Qed.

(** What [execute] does, case by case. *)
Lemma execute_cases (x : t) (w : World K) :
  execute x w =
  if isConstructed_ x && Status_eqb (status_ x) STATUS_NEW then
    let uxPriority := convertPriority (priority_ x) in
    let r := xTaskCreateStatic THREAD_STACK_DEPTH uxPriority (kernel w) in
    let w1 := {| kernel := snd r;
                 trace := trace w ++ [XTaskCreateStatic THREAD_STACK_DEPTH uxPriority] |} in
    if is_null (fst r) then (false, set_thread_ (fst r) x, w1)
    else (true, set_status_ STATUS_RUNNABLE (set_thread_ (fst r) x), w1)
  else (false, x, w).
Proof.
  unfold execute, isConstructed. run.
  destruct (isConstructed_ x); cbn; [|reflexivity].
  destruct (Status_eqb (status_ x) STATUS_NEW); cbn; [|reflexivity].
  destruct (xTaskCreateStatic _ _ _) as [h k1]; cbn.
  destruct (is_null h); reflexivity.
Qed.

(** What [setPriority] does, case by case; the result is always [false]. *)
Lemma setPriority_cases (p : Z) (x : t) (w : World K) :
  setPriority p x w =
  if isConstructed_ x && isPriority p then
    match status_ x with
    | STATUS_RUNNABLE =>
        (false, set_priority_ p x,
         {| kernel := snd (vTaskPrioritySet (thread_ x) (convertPriority p) (kernel w));
            trace := trace w ++ [VTaskPrioritySet (thread_ x) (convertPriority p)] |})
    | STATUS_NEW => (false, set_priority_ p x, w)
    | STATUS_DEAD => (false, x, w)
    end
  else (false, x, w).
Proof.
  unfold setPriority, isConstructed. run.
  destruct (isConstructed_ x && isPriority p); [|reflexivity].
  destruct (status_ x); run; try reflexivity.
  now destruct (vTaskPrioritySet _ _ _).
Qed.

Lemma getPriority_cases (x : t) (w : World K) :
  getPriority x w =
  (if isConstructed_ x then priority_ x else PRIORITY_WRONG, x, w).
Proof.
  unfold getPriority, isConstructed. run. now destruct (isConstructed_ x).
Qed.

(** The entry function leaves the handle, the priority and the validity
    alone, and the status either as it was or [STATUS_DEAD]. *)
Lemma start_thread_frame (x : t) (w : World K) :
  let y := object (start_thread x w) in
  thread_ y = thread_ x /\ isConstructed_ y = isConstructed_ x /\
  (status_ y = status_ x \/ status_ y = STATUS_DEAD).
Proof.
  unfold start_thread, isConstructed. run.
  destruct (isConstructed_ x) eqn:Ec; cbn.
  - destruct (task_ x) as [task|]; cbn.
    + destruct (task_isConstructed task); cbn.
      * destruct (task_start task (kernel w)); cbn.
        destruct (vTaskSuspend NULL _); cbn. auto.
      * destruct (vTaskSuspend NULL _); cbn. auto.
    + destruct (vTaskSuspend NULL _); cbn. auto.
  - destruct (vTaskSuspend NULL _); cbn. auto.
Qed.

Lemma join_loop_frame (fuel : nat) (x : t) (w : World K) :
  let y := object (join_loop fuel x w) in
  thread_ y = thread_ x /\ isConstructed_ y = isConstructed_ x /\
  (status_ y = status_ x \/ status_ y = STATUS_DEAD).
Proof.
  revert x w. induction fuel as [|n IH]; intros x w; cbn [join_loop]; run.
  - destruct (Status_eqb (status_ x) STATUS_DEAD); cbn; auto.
  - destruct (Status_eqb (status_ x) STATUS_DEAD); cbn; auto.
    destruct (taskYIELD (kernel w)) as [ran k1]; cbn.
    destruct ran.
    + match goal with
      | |- context [start_thread x ?w1] =>
          pose proof (start_thread_frame x w1) as Hs;
          destruct (start_thread x w1) as [[u x1] w2]
      end.
      cbn in Hs. destruct Hs as (Ht & Hc & Hs).
      specialize (IH x1 w2). cbn in IH. destruct IH as (Ht' & Hc' & Hs').
      rewrite Ht', Hc', <- Ht, <- Hc.
      repeat split; auto.
      destruct Hs' as [-> | ->]; auto.
    + apply IH.
Qed.

Lemma join_cases (fuel : nat) (x : t) (w : World K) :
  join fuel x w =
  if isConstructed_ x && Status_eqb (status_ x) STATUS_RUNNABLE
  then join_loop fuel x w
  else (Some false, x, w).
Proof.
  unfold join, isConstructed. run.
  now destruct (isConstructed_ x && Status_eqb (status_ x) STATUS_RUNNABLE).
Qed.

(** The loop of [join] ends with [Some true] or runs out of fuel. *)
Lemma join_loop_result (fuel : nat) (x : t) (w : World K) :
  result (join_loop fuel x w) = Some true \/
  result (join_loop fuel x w) = None.
Proof.
  revert x w. induction fuel as [|n IH]; intros x w; cbn [join_loop]; run.
  - destruct (Status_eqb (status_ x) STATUS_DEAD); cbn; auto.
  - destruct (Status_eqb (status_ x) STATUS_DEAD); cbn; auto.
    destruct (taskYIELD (kernel w)) as [ran k1]; cbn.
    destruct ran.
    + match goal with
      | |- context [start_thread x ?w1] =>
          destruct (start_thread x w1) as [[u x1] w2]
      end.
      apply IH.
    + apply IH.
Qed.

Lemma dtor_cases (x : t) (w : World K) :
  dtor x w =
  if negb (is_null (thread_ x)) then
    (tt, set_status_ STATUS_DEAD x,
     {| kernel := snd (vTaskDelete (thread_ x) (kernel w));
        trace := trace w ++ [VTaskDelete (thread_ x)] |})
  else (tt, x, w).
Proof.
  unfold dtor. run. destruct (negb (is_null (thread_ x))); [|reflexivity].
  run. now destruct (vTaskDelete _ _) as [[] k1].
Qed.

(** What the constructor leaves: no handle, and a status that tells whether
    construction succeeded. *)
Lemma ctor_state (base : bool) (task : Task) (w : World K) :
  let x := fst (ctor base task w) in
  thread_ x = NULL /\
  snd (ctor base task w) = w /\
  status_ x = (if isConstructed_ x then STATUS_NEW else STATUS_DEAD) /\
  isConstructed_ x =
    base && negb (PRIORITY_MAX >=? configMAX_PRIORITIES)
    && task_isConstructed task.
Proof.
  unfold ctor, construct, setConstructed, isConstructed. run.
  destruct base; cbn; auto.
  destruct (PRIORITY_MAX >=? configMAX_PRIORITIES); cbn; auto.
  destruct (task_isConstructed task); cbn; auto.
Qed.

(** One operation: the handle changes only in [execute], and the status
    either stays, or becomes [STATUS_DEAD], or goes from [STATUS_NEW] to
    [STATUS_RUNNABLE] in an [execute] that got a handle. *)
Lemma exec_op_frame (o : Op) (x : t * World K) :
  let y := exec_op o x in
  (status_ (fst y) = status_ (fst x) /\ thread_ (fst y) = thread_ (fst x)) \/
  (status_ (fst y) = STATUS_DEAD /\ thread_ (fst y) = thread_ (fst x) /\
   (o = OpStart \/ (o = OpDestroy /\ is_null (thread_ (fst x)) = false) \/
    (exists n, o = OpJoin n) /\ status_ (fst x) = STATUS_RUNNABLE)) \/
  (status_ (fst x) = STATUS_NEW /\ o = OpExecute /\
   ((status_ (fst y) = STATUS_RUNNABLE /\ is_null (thread_ (fst y)) = false) \/
    (status_ (fst y) = STATUS_NEW /\ is_null (thread_ (fst y)) = true))).
Proof.
  destruct x as [x w]. destruct o; cbn [exec_op fst snd]; unfold forget;
    cbn [fst snd].
  - (* execute *)
    rewrite execute_cases.
    destruct (isConstructed_ x); cbn [andb]; [|left; auto].
    destruct (Status_eqb (status_ x) STATUS_NEW) eqn:Es; [|left; auto].
    apply Status_eqb_eq in Es. right. right.
    cbv zeta.
    destruct (is_null (fst (xTaskCreateStatic _ _ _))) eqn:En; cbn; auto.
  - (* join *)
    rewrite join_cases.
    destruct (isConstructed_ x); cbn [andb]; [|left; auto].
    destruct (Status_eqb (status_ x) STATUS_RUNNABLE) eqn:Es; [|left; auto].
    apply Status_eqb_eq in Es.
    destruct (join_loop_frame fuel x w) as (Ht & _ & [Hs | Hs]).
    + left. auto.
    + right. left. repeat split; auto. right. right. split; eauto.
  - rewrite getPriority_cases. left. auto.
  - rewrite setPriority_cases.
    destruct (isConstructed_ x && isPriority priority); [|left; auto].
    destruct (status_ x) eqn:Es; left; cbn; auto.
  - destruct (start_thread_frame x w) as (Ht & _ & [Hs | Hs]).
    + left. auto.
    + right. left. auto.
  - rewrite dtor_cases.
    destruct (is_null (thread_ x)) eqn:En; cbn [negb]; [left; auto|].
    right. left. cbn. repeat split; auto.
Qed.

Lemma reachable_started (x : t * World K) : reachable x -> started (fst x).
Proof.
  induction 1 as [base task w | o x Hr IH He].
  - destruct (ctor_state base task w) as (Ht & _).
    intros Hn. unfold is_null in Hn. rewrite Ht in Hn. discriminate.
  - unfold started in *.
    destruct (exec_op_frame o x) as [(Hs & Ht) | [(Hs & Ht & _) | (_ & _ & [(Hs & _) | (_ & Hn)])]].
    + rewrite Hs, Ht. exact IH.
    + intros _. rewrite Hs. discriminate.
    + intros _. rewrite Hs. discriminate.
    + intros Hn'. rewrite Hn in Hn'. discriminate.
Qed.

(** Runs of whole operations, where the entry function never runs between
    the creation of the task and the write of [STATUS_RUNNABLE] in
    [execute].  The constructor leaves [STATUS_NEW] when construction
    succeeds and [STATUS_DEAD] when it fails; from any state reached from
    there, every operation leaves the status as it is, or moves it from
    [STATUS_NEW] to
    [STATUS_RUNNABLE] (only [execute], with a kernel handle), or from
    [STATUS_RUNNABLE] to [STATUS_DEAD] (only the entry function, also while
    [join] polls, and destruction). *)
Theorem status_follows_lifecycle :
  (forall (base : bool) (task : Task) (w : World K),
     let x := fst (ctor base task w) in
     status_ x = (if isConstructed_ x then STATUS_NEW else STATUS_DEAD)) /\
  (forall (x : t * World K) (o : Op),
     reachable x -> enabled o (fst x) = true ->
     let a := status_ (fst x) in
     let b := status_ (fst (exec_op o x)) in
     a = b \/
     (a = STATUS_NEW /\ b = STATUS_RUNNABLE /\ o = OpExecute /\
      thread_ (fst (exec_op o x)) <> NULL) \/
     (a = STATUS_RUNNABLE /\ b = STATUS_DEAD /\
      (o = OpStart \/ o = OpDestroy \/ exists n, o = OpJoin n))).
Proof.
  split.
  - intros base task w. apply ctor_state.
  - intros x o Hr He a b. subst a b.
    pose proof (reachable_started x Hr) as Hst. unfold started in Hst.
    destruct (exec_op_frame o x)
      as [(Hs & _) | [(Hs & Ht & Ho) | (Ha & Ho & [(Hs & Hn) | (Hs & _)])]].
    + left. congruence.
    + destruct (status_ (fst x)) eqn:Ea.
      * exfalso. destruct Ho as [-> | [(-> & Hn) | ((n & ->) & Hrun)]].
        -- cbn in He. apply negb_true_iff in He. now apply Hst.
        -- now apply Hst.
        -- discriminate.
      * right. right. repeat split; auto.
        destruct Ho as [-> | [(-> & _) | ((n & ->) & _)]]; eauto.
      * left. congruence.
    + right. left. repeat split; auto.
      intros E. unfold is_null in Hn. rewrite E in Hn. discriminate.
    + left. congruence.
Qed.

(** [STATUS_DEAD] is final. *)
Lemma dead_is_final (x : t * World K) (o : Op) :
  reachable x -> enabled o (fst x) = true ->
  status_ (fst x) = STATUS_DEAD -> status_ (fst (exec_op o x)) = STATUS_DEAD.
Proof.
  intros Hr He Hd.
  destruct (exec_op_frame o x)
    as [(Hs & _) | [(Hs & _) | (Ha & _)]]; congruence.
Qed.

(** C5.  [execute] returns false exactly when the thread is not validly
    constructed, or is not [STATUS_NEW], or the kernel returns a null
    handle for the task; when it returns true the kernel was asked to
    create the task, gave the stored non-null handle, and the status is
    [STATUS_RUNNABLE]. *)
Theorem execute_result (x : t) (w : World K) :
  let uxPriority := convertPriority (priority_ x) in
  let created := fst (xTaskCreateStatic THREAD_STACK_DEPTH uxPriority (kernel w)) in
  let r := execute x w in
  (result r = false <->
     isConstructed_ x = false \/ status_ x <> STATUS_NEW \/ created = NULL) /\
  (result r = true ->
     status_ (object r) = STATUS_RUNNABLE /\
     thread_ (object r) = created /\ created <> NULL /\
     trace (world r) = trace w ++ [XTaskCreateStatic THREAD_STACK_DEPTH uxPriority]).
Proof.
  cbv zeta. rewrite execute_cases. cbv zeta.
  destruct (isConstructed_ x); cbn [andb].
  2:{ cbn. split; [tauto | discriminate]. }
  destruct (Status_eqb (status_ x) STATUS_NEW) eqn:Es.
  2:{ cbn. split; [|discriminate].
      split; auto. intros _. right. left. intros E.
      apply Status_eqb_eq in E. congruence. }
  apply Status_eqb_eq in Es.
  unfold is_null.
  destruct (Z.eqb_spec
    (fst (xTaskCreateStatic THREAD_STACK_DEPTH (convertPriority (priority_ x))
            (kernel w))) NULL) as [e | n]; cbn.
  - split; [tauto | discriminate].
  - split.
    + split; [discriminate|].
      intros [H | [H | H]]; [discriminate | congruence | contradiction].
    + auto.
Qed.

(** C3, as the code has it.  When [execute] fails on a valid thread in
    [STATUS_NEW], the kernel returned no handle and the status is still
    [STATUS_NEW]: the call made the thread neither runnable nor dead. *)
Theorem failed_execute_stays_new (x : t) (w : World K) :
  isConstructed_ x = true ->
  status_ x = STATUS_NEW ->
  result (execute x w) = false ->
  status_ (object (execute x w)) = STATUS_NEW /\
  thread_ (object (execute x w)) = NULL /\
  isConstructed_ (object (execute x w)) = true.
Proof.
  intros Hc Hs. rewrite execute_cases, Hc, Hs. cbn [andb Status_eqb]. cbv zeta.
  unfold is_null.
  destruct (Z.eqb_spec
    (fst (xTaskCreateStatic THREAD_STACK_DEPTH (convertPriority (priority_ x))
            (kernel w))) NULL) as [e | n]; cbn; [auto | discriminate].
Qed.

(** [isPriority] accepts the range and the idle level. *)
Lemma isPriority_spec (p : Z) :
  isPriority p = true <->
  (PRIORITY_MIN <= p <= PRIORITY_MAX \/ p = PRIORITY_IDLE).
Proof.
  unfold isPriority.
  destruct (Z.leb_spec PRIORITY_MIN p) as [Hlo | Hlo],
    (Z.leb_spec p PRIORITY_MAX) as [Hhi | Hhi],
    (Z.eqb_spec p PRIORITY_IDLE) as [Hid | Hid]; cbn; split; intros Hyp;
    try reflexivity; try discriminate; try lia; auto.
Qed.

(** C6.  [setPriority p] accepts [p] in the range or equal to the idle
    level.  On a valid thread with an accepted [p]: in [STATUS_RUNNABLE]
    the kernel is told and [p] is stored; in [STATUS_NEW] [p] is stored
    without a kernel call, the returned flag is false, and a following
    [execute] creates the task with [p].  Otherwise (not constructed,
    [p] refused, or [STATUS_DEAD]) nothing changes. *)
Theorem setPriority_effect (p : Z) (x : t) (w : World K) :
  let r := setPriority p x w in
  (isPriority p = true <->
     (PRIORITY_MIN <= p <= PRIORITY_MAX \/ p = PRIORITY_IDLE)) /\
  (isConstructed_ x = true -> isPriority p = true ->
   status_ x = STATUS_RUNNABLE ->
     priority_ (object r) = p /\
     trace (world r) =
       trace w ++ [VTaskPrioritySet (thread_ x) (convertPriority p)] /\
     kernel (world r) =
       snd (vTaskPrioritySet (thread_ x) (convertPriority p) (kernel w))) /\
  (isConstructed_ x = true -> isPriority p = true ->
   status_ x = STATUS_NEW ->
     priority_ (object r) = p /\ world r = w /\ result r = false /\
     trace (world (execute (object r) (world r))) =
       trace w ++ [XTaskCreateStatic THREAD_STACK_DEPTH (convertPriority p)]) /\
  (isConstructed_ x = false \/ isPriority p = false \/ status_ x = STATUS_DEAD ->
     object r = x /\ world r = w).
Proof.
  cbv zeta. rewrite setPriority_cases.
  split; [apply isPriority_spec|].
  split; [|split].
  - intros -> -> ->. cbn. auto.
  - intros Hc Hp Hs. rewrite Hc, Hp, Hs. cbn [andb object world result fst snd].
    repeat split; auto.
    rewrite execute_cases. cbn [isConstructed_ set_priority_ status_ priority_].
    rewrite Hc, Hs. cbn [andb Status_eqb]. cbv zeta.
    destruct (is_null _); reflexivity.
  - intros [-> | [-> | ->]]; cbn [andb].
    + auto.
    + rewrite andb_false_r. auto.
    + destruct (isConstructed_ x && isPriority p); auto.
Qed.

(** C9.  [setPriority] returns false on every call. *)
Theorem setPriority_returns_false (p : Z) (x : t) (w : World K) :
  result (setPriority p x w) = false.
Proof.
  rewrite setPriority_cases.
  destruct (isConstructed_ x && isPriority p); [|reflexivity].
  now destruct (status_ x).
Qed.

(** C10.  On a valid thread that is [STATUS_DEAD] or [STATUS_NEW], [join]
    returns false at once: no yield, no change, whatever the fuel.  [join]
    returns true only when it was called in [STATUS_RUNNABLE] on a valid
    thread, and then the thread is [STATUS_DEAD] when it returns. *)
Theorem join_waits_only_when_runnable (fuel : nat) (x : t) (w : World K) :
  (isConstructed_ x = true ->
   status_ x = STATUS_DEAD \/ status_ x = STATUS_NEW ->
     join fuel x w = (Some false, x, w)) /\
  (result (join fuel x w) = Some true ->
     isConstructed_ x = true /\ status_ x = STATUS_RUNNABLE).
Proof.
  rewrite join_cases. split.
  - intros -> [-> | ->]; reflexivity.
  - destruct (isConstructed_ x); cbn [andb]; [|discriminate].
    destruct (Status_eqb (status_ x) STATUS_RUNNABLE) eqn:Es; [|discriminate].
    apply Status_eqb_eq in Es. auto.
Qed.

(** Once the status is [STATUS_DEAD] the loop of [join] ends with true. *)
Lemma join_loop_ends (fuel : nat) (x : t) (w : World K) :
  status_ x = STATUS_DEAD -> join_loop fuel x w = (Some true, x, w).
Proof. intros H. destruct fuel; cbn [join_loop]; run; now rewrite H. Qed.

(** An invalid thread refuses every operation and leaves the kernel
    alone; [getPriority] answers with the sentinel. *)
Lemma thread_gate (x : t) (w : World K) (fuel : nat) (p : Z) :
  isConstructed_ x = false ->
  execute x w = (false, x, w) /\
  join fuel x w = (Some false, x, w) /\
  getPriority x w = (PRIORITY_WRONG, x, w) /\
  setPriority p x w = (false, x, w).
Proof.
  intros H.
  rewrite execute_cases, join_cases, getPriority_cases, setPriority_cases, H.
  cbn. auto.
Qed.

End ThreadFacts.

(** ** Concrete runs on the scripted kernel *)

(** C1.  [getCount] on an invalid semaphore: the semaphore constructed with
    permits [-1] is invalid and holds a null handle, [acquire] on it is
    refused without a kernel call, yet [getCount] calls
    [uxSemaphoreGetCount] on the null handle and returns the kernel's
    answer. *)
Theorem getCount_ignores_validity :
  SemaphoreResource.isConstructed_ (fst negative_semaphore) = false /\
  SemaphoreResource.sem_ (fst negative_semaphore) = NULL /\
  snd negative_semaphore = boot [7] /\
  SemaphoreResource.acquire (fst negative_semaphore) (snd negative_semaphore) =
    (false, fst negative_semaphore, boot [7]) /\
  SemaphoreResource.getCount (fst negative_semaphore) (snd negative_semaphore) =
    (7, fst negative_semaphore,
     {| kernel := []; trace := [UxSemaphoreGetCount NULL] |}).
Proof. repeat split. Qed.

(** C7.  A binary semaphore constructed with permits [-1] is invalid, was
    never created in the kernel and refuses [acquire]; constructed with [0]
    over the same kernel it is valid, created, and [acquire] passes. *)
Theorem binary_semaphore_negative_permits :
  SemaphoreResource.isConstructed_ (fst binary_minus_one) = false /\
  trace (snd binary_minus_one) = [] /\
  result (SemaphoreResource.acquire (fst binary_minus_one) (snd binary_minus_one))
    = false /\
  SemaphoreResource.isConstructed_ (fst binary_zero) = true /\
  trace (snd binary_zero) = [XSemaphoreCreateBinaryStatic] /\
  result (SemaphoreResource.acquire (fst binary_zero) (snd binary_zero)) = true.
Proof. repeat split. Qed.

(** C3, as stated, fails: a valid thread in [STATUS_NEW] whose [execute]
    fails for want of a kernel handle is still [STATUS_NEW], not
    [STATUS_DEAD], and a second [execute] makes it [STATUS_RUNNABLE]. *)
Lemma failed_execute_is_not_dead :
  ThreadResource.isConstructed_ (fst fresh_thread) = true /\
  ThreadResource.status_ (fst fresh_thread) = ThreadResource.STATUS_NEW /\
  result (ThreadResource.execute (fst fresh_thread) (snd fresh_thread)) = false /\
  ThreadResource.status_
    (object (ThreadResource.execute (fst fresh_thread) (snd fresh_thread)))
    <> ThreadResource.STATUS_DEAD /\
  ThreadResource.status_
    (fst (ThreadResource.exec_op ThreadResource.OpExecute
            (ThreadResource.exec_op ThreadResource.OpExecute fresh_thread)))
    = ThreadResource.STATUS_RUNNABLE.
Proof. repeat split. discriminate. Qed.

(** *** Instances of the general theorems *)

(** C2 at permits [-1] (invalid) and at permits [2], maximum [5] (valid when
    the kernel gives handle [7]). *)
Lemma semaphore_construction_validity_witness :
  (-1 < 0 \/ 5 < 0 \/ 5 > SemaphoreResource.MAX_PERMITS) /\
  SemaphoreResource.isConstructed_
    (fst (SemaphoreResource.ctor_permits true (-1) 5 (boot [7]))) = false /\
  (~ (2 < 0 \/ 5 < 0 \/ 5 > SemaphoreResource.MAX_PERMITS) /\
   (SemaphoreResource.isConstructed_
      (fst (SemaphoreResource.ctor_permits true 2 5 (boot [7]))) = true <->
    fst (xSemaphoreCreateCountingStatic (to_UBaseType 5) (to_UBaseType 2)
           (kernel (boot [7]))) <> NULL)).
Proof.
  split; [left; lia|]. split.
  - destruct (semaphore_construction_validity true (-1) 5 (boot [7])) as [H _].
    destruct H as [H _]; [left; lia | exact H].
  - split; [unfold SemaphoreResource.MAX_PERMITS; lia|].
    destruct (semaphore_construction_validity true 2 5 (boot [7])) as [_ H].
    apply H; [unfold SemaphoreResource.MAX_PERMITS; lia | reflexivity].
Defined.


(** The lifecycle of whole operations at the state reached by one failed
    [execute], for a second [execute]. *)
Lemma status_follows_lifecycle_witness :
  ThreadResource.reachable (ThreadResource.exec_op ThreadResource.OpExecute fresh_thread) /\
  ThreadResource.enabled ThreadResource.OpExecute
    (fst (ThreadResource.exec_op ThreadResource.OpExecute fresh_thread)) = true /\
  let x := ThreadResource.exec_op ThreadResource.OpExecute fresh_thread in
  let a := ThreadResource.status_ (fst x) in
  let b := ThreadResource.status_
             (fst (ThreadResource.exec_op ThreadResource.OpExecute x)) in
  a = b \/
  (a = ThreadResource.STATUS_NEW /\ b = ThreadResource.STATUS_RUNNABLE /\
   ThreadResource.OpExecute = ThreadResource.OpExecute /\
   ThreadResource.thread_
     (fst (ThreadResource.exec_op ThreadResource.OpExecute x)) <> NULL) \/
  (a = ThreadResource.STATUS_RUNNABLE /\ b = ThreadResource.STATUS_DEAD /\
   (ThreadResource.OpExecute = ThreadResource.OpStart \/
    ThreadResource.OpExecute = ThreadResource.OpDestroy \/
    exists n, ThreadResource.OpExecute = ThreadResource.OpJoin n)).
Proof.
  assert (ThreadResource.reachable
            (ThreadResource.exec_op ThreadResource.OpExecute fresh_thread)) as Hr.
  { apply ThreadResource.reachable_op; [|reflexivity].
    apply ThreadResource.reachable_ctor. }
  split; [exact Hr|]. split; [reflexivity|].
  destruct (status_follows_lifecycle (K := list Z)) as [_ H].
  apply (H (ThreadResource.exec_op ThreadResource.OpExecute fresh_thread)
           ThreadResource.OpExecute Hr).
  reflexivity.
Defined.

(** C5 at the second [execute] of [fresh_thread], for which the kernel gives
    handle [5]. *)
Lemma execute_result_witness :
  let x := object (ThreadResource.execute (fst fresh_thread) (snd fresh_thread)) in
  let w := world (ThreadResource.execute (fst fresh_thread) (snd fresh_thread)) in
  result (ThreadResource.execute x w) = true /\
  ThreadResource.status_ (object (ThreadResource.execute x w)) =
    ThreadResource.STATUS_RUNNABLE /\
  ThreadResource.thread_ (object (ThreadResource.execute x w)) = 5.
Proof.
  cbv zeta. split; [reflexivity|].
  destruct (execute_result
    (object (ThreadResource.execute (fst fresh_thread) (snd fresh_thread)))
    (world (ThreadResource.execute (fst fresh_thread) (snd fresh_thread))))
    as [_ H].
  destruct H as (H1 & H2 & _); [reflexivity|].
  split; [exact H1 | exact H2].
Defined.

(** C3, as the code has it, at the first [execute] of [fresh_thread]. *)
Lemma failed_execute_stays_new_witness :
  ThreadResource.isConstructed_ (fst fresh_thread) = true /\
  ThreadResource.status_ (fst fresh_thread) = ThreadResource.STATUS_NEW /\
  result (ThreadResource.execute (fst fresh_thread) (snd fresh_thread)) = false /\
  ThreadResource.status_
    (object (ThreadResource.execute (fst fresh_thread) (snd fresh_thread)))
    = ThreadResource.STATUS_NEW.
Proof.
  split; [reflexivity|]. split; [reflexivity|]. split; [reflexivity|].
  apply (failed_execute_stays_new (fst fresh_thread) (snd fresh_thread));
    reflexivity.
Defined.

(** C6 at priority [7] on a runnable and on a new thread, and at the refused
    priority [11]. *)
Lemma setPriority_effect_witness :
  let x := fst (ThreadResource.exec_op ThreadResource.OpExecute
             (ThreadResource.exec_op ThreadResource.OpExecute fresh_thread)) in
  let w := snd (ThreadResource.exec_op ThreadResource.OpExecute
             (ThreadResource.exec_op ThreadResource.OpExecute fresh_thread)) in
  (ThreadResource.isConstructed_ x = true /\
   ThreadResource.isPriority 7 = true /\
   ThreadResource.status_ x = ThreadResource.STATUS_RUNNABLE /\
   ThreadResource.priority_ (object (ThreadResource.setPriority 7 x w)) = 7) /\
  (ThreadResource.isConstructed_ (fst fresh_thread) = true /\
   ThreadResource.status_ (fst fresh_thread) = ThreadResource.STATUS_NEW /\
   ThreadResource.priority_
     (object (ThreadResource.setPriority 7 (fst fresh_thread) (snd fresh_thread)))
     = 7) /\
  (ThreadResource.isPriority 11 = false /\
   object (ThreadResource.setPriority 11 x w) = x).
Proof.
  cbv zeta. split; [|split].
  - split; [reflexivity|]. split; [reflexivity|]. split; [reflexivity|].
    destruct (setPriority_effect 7
      (fst (ThreadResource.exec_op ThreadResource.OpExecute
         (ThreadResource.exec_op ThreadResource.OpExecute fresh_thread)))
      (snd (ThreadResource.exec_op ThreadResource.OpExecute
         (ThreadResource.exec_op ThreadResource.OpExecute fresh_thread))))
      as (_ & H & _).
    destruct H as (H & _); [reflexivity | reflexivity | reflexivity | exact H].
  - split; [reflexivity|]. split; [reflexivity|].
    destruct (setPriority_effect 7 (fst fresh_thread) (snd fresh_thread))
      as (_ & _ & H & _).
    destruct H as (H & _); [reflexivity | reflexivity | reflexivity | exact H].
  - split; [reflexivity|].
    destruct (setPriority_effect 11
      (fst (ThreadResource.exec_op ThreadResource.OpExecute
         (ThreadResource.exec_op ThreadResource.OpExecute fresh_thread)))
      (snd (ThreadResource.exec_op ThreadResource.OpExecute
         (ThreadResource.exec_op ThreadResource.OpExecute fresh_thread))))
      as (_ & _ & _ & H).
    destruct H as (H & _); [right; left; reflexivity | exact H].
Defined.

(** C10 on a new thread, and on a runnable thread whose entry function ends
    during the second yield, where [join] returns true. *)
Lemma join_waits_only_when_runnable_witness :
  (ThreadResource.isConstructed_ (fst fresh_thread) = true /\
   ThreadResource.status_ (fst fresh_thread) = ThreadResource.STATUS_NEW /\
   ThreadResource.join 3 (fst fresh_thread) (snd fresh_thread) =
     (Some false, fst fresh_thread, snd fresh_thread)) /\
  (let x := ThreadResource.ctor true idle_task (boot [5; 0; 1]) in
   let y := ThreadResource.exec_op ThreadResource.OpExecute x in
   result (ThreadResource.join 3 (fst y) (snd y)) = Some true /\
   ThreadResource.isConstructed_ (fst y) = true /\
   ThreadResource.status_ (fst y) = ThreadResource.STATUS_RUNNABLE).
Proof.
  split.
  - split; [reflexivity|]. split; [reflexivity|].
    destruct (join_waits_only_when_runnable 3 (fst fresh_thread) (snd fresh_thread))
      as [H _].
    apply H; [reflexivity | right; reflexivity].
  - cbv zeta. split; [reflexivity|].
    destruct (join_waits_only_when_runnable 3
      (fst (ThreadResource.exec_op ThreadResource.OpExecute
              (ThreadResource.ctor true idle_task (boot [5; 0; 1]))))
      (snd (ThreadResource.exec_op ThreadResource.OpExecute
              (ThreadResource.ctor true idle_task (boot [5; 0; 1])))))
      as [_ H].
    apply H. reflexivity.
Defined.

(* ================================================================== *)
(** * Part III: further properties of the resources *)
(* ================================================================== *)

(** ** Mutex: construction, use and destruction *)

Section MutexRunFacts.

Context {K : Type} {rtos : FreeRTOS K}.
Import MutexResource.

(** What the constructor leaves: the kernel is asked for a mutex only over
    a valid base, and the object is valid exactly when it got a handle. *)
Lemma mutex_ctor_state (base : bool) (w : World K) :
  let x := ctor base w in
  let h := fst (xSemaphoreCreateRecursiveMutexStatic (kernel w)) in
  (base = false -> x = (mk false NULL, w)) /\
  (base = true ->
     x = (mk (negb (is_null h)) h,
          {| kernel := snd (xSemaphoreCreateRecursiveMutexStatic (kernel w));
             trace := trace w ++ [XSemaphoreCreateRecursiveMutexStatic] |})).
Proof.
  unfold ctor, construct, setConstructed, isConstructed, initialize. run.
  split; intros ->; cbn; [reflexivity|].
  destruct (xSemaphoreCreateRecursiveMutexStatic (kernel w)) as [h k1]; cbn.
  destruct (is_null h); reflexivity.
Qed.

(** One operation leaves the object alone and adds the expected calls. *)
Lemma mutex_exec_op_frame (o : MutexRun.Op) (x : t * World K) :
  fst (MutexRun.exec_op o x) = fst x /\
  trace (snd (MutexRun.exec_op o x)) =
  trace (snd x) ++ MutexRun.calls (isConstructed_ (fst x)) (mutex_ (fst x)) o.
Proof.
  destruct x as [m w]. destruct o; cbn [MutexRun.exec_op fst snd];
    unfold MutexRun.forget, MutexRun.calls.
  - cbn. destruct (isConstructed_ m); now rewrite app_nil_r.
  - unfold lock, isConstructed. run.
    destruct (isConstructed_ m); cbn; [|now rewrite app_nil_r].
    now destruct (xSemaphoreTakeRecursive (mutex_ m) (kernel w)).
  - unfold unlock, isConstructed. run.
    destruct (isConstructed_ m); cbn; [|now rewrite app_nil_r].
    now destruct (xSemaphoreGiveRecursive (mutex_ m) (kernel w)).
Qed.

Lemma mutex_exec_ops_frame (os : list MutexRun.Op) (x : t * World K) :
  fst (MutexRun.exec_ops os x) = fst x /\
  trace (snd (MutexRun.exec_ops os x)) =
  trace (snd x) ++
  flat_map (MutexRun.calls (isConstructed_ (fst x)) (mutex_ (fst x))) os.
Proof.
  revert x. induction os as [|o os IH]; intros x; cbn.
  - now rewrite app_nil_r.
  - unfold MutexRun.exec_ops in IH.
    destruct (IH (MutexRun.exec_op o x)) as [Ho Ht].
    destruct (mutex_exec_op_frame o x) as [Ho1 Ht1].
    rewrite Ho, Ht, Ho1, Ht1, app_assoc. auto.
Qed.

(** An invalid mutex never reaches the kernel after its construction. *)
Lemma mutex_invalid_world (o : MutexRun.Op) (x : t * World K) :
  isConstructed_ (fst x) = false -> MutexRun.exec_op o x = x.
Proof.
  destruct x as [m w]. cbn [fst]. intros H.
  destruct o; cbn [MutexRun.exec_op fst snd]; unfold MutexRun.forget.
  - reflexivity.
  - now rewrite mutex_lock_gate.
  - now rewrite mutex_unlock_gate.
Qed.

(** X1.  After construction and any sequence of [tryLock], [lock] and
    [unlock], the mutex object is as the constructor left it, it is valid
    exactly when its handle is not null, and the calls that reached the
    kernel are one [xSemaphoreTakeRecursive] per [lock] and one
    [xSemaphoreGiveRecursive] per [unlock], all on that handle, for a valid
    mutex, and none for an invalid one. *)
Theorem mutex_calls_on_its_handle
    (base : bool) (w : World K) (os : list MutexRun.Op) :
  let x := ctor base w in
  let y := MutexRun.exec_ops os x in
  fst y = fst x /\
  isConstructed_ (fst x) = negb (is_null (mutex_ (fst x))) /\
  trace (snd y) =
    trace (snd x) ++
    flat_map (MutexRun.calls (isConstructed_ (fst x)) (mutex_ (fst x))) os /\
  (isConstructed_ (fst x) = false -> y = x).
Proof.
  cbv zeta.
  destruct (mutex_exec_ops_frame os (ctor base w)) as [Ho Ht].
  repeat split; auto.
  - destruct (mutex_ctor_state base w) as [Hf Ht'].
    destruct base; [rewrite Ht' | rewrite Hf]; auto.
  - intros Hinv. generalize (ctor base w) Hinv. clear.
    induction os as [|o os IH]; intros x Hx; cbn; [reflexivity|].
    rewrite mutex_invalid_world by exact Hx.
    now apply IH.
Qed.

(** X2.  The destructor, after any use, deletes the kernel mutex exactly
    when the constructor obtained one: a valid mutex ends with one
    [vSemaphoreDelete] on its handle, an invalid one is destroyed without a
    kernel call. *)
Theorem mutex_destructor_deletes_what_was_created
    (base : bool) (w : World K) (os : list MutexRun.Op) :
  let x := ctor base w in
  let y := MutexRun.exec_ops os x in
  let h := mutex_ (fst x) in
  trace (world (dtor (fst y) (snd y))) =
    trace (snd y) ++ (if isConstructed_ (fst x) then [VSemaphoreDelete h] else []) /\
  (isConstructed_ (fst x) = true -> h <> NULL) /\
  (isConstructed_ (fst x) = false -> world (dtor (fst y) (snd y)) = snd y).
Proof.
  cbv zeta.
  destruct (mutex_exec_ops_frame os (ctor base w)) as [Ho _].
  rewrite Ho.
  assert (isConstructed_ (fst (ctor base w)) =
          negb (is_null (mutex_ (fst (ctor base w))))) as Hv.
  { destruct (mutex_ctor_state base w) as [Hf Ht'].
    destruct base; [rewrite Ht' | rewrite Hf]; auto. }
  destruct (ctor base w) as [m w0]. cbn [fst snd] in *.
  generalize (snd (MutexRun.exec_ops os (m, w0))). intros w1.
  unfold dtor, deinitialize. run. rewrite Hv.
  destruct (is_null (mutex_ m)) eqn:En; cbn.
  - repeat split; [now rewrite app_nil_r | discriminate].
  - destruct (vSemaphoreDelete _ _); cbn.
    repeat split; [|discriminate].
    intros _ E. unfold is_null in En. rewrite E in En. discriminate.
Qed.

End MutexRunFacts.

(** ** Semaphore: construction, use and destruction *)

Section SemaphoreRunFacts.

Context {K : Type} {rtos : FreeRTOS K}.
Import SemaphoreResource.

(** One operation keeps validity, handle, type and bounds, and adds the
    expected calls to the trace. *)
Lemma sem_exec_op_frame (o : Op) (x : t * World K) :
  let y := exec_op o x in
  isConstructed_ (fst y) = isConstructed_ (fst x) /\
  sem_ (fst y) = sem_ (fst x) /\
  trace (snd y) =
    trace (snd x) ++ SemaphoreRun.calls (isConstructed_ (fst x)) (sem_ (fst x)) o.
Proof.
  destruct x as [s w]. destruct o; cbn [exec_op fst snd SemaphoreRun.calls];
    unfold forget.
  - unfold acquire, isConstructed. run.
    destruct (isConstructed_ s) eqn:E; cbn; [|now rewrite app_nil_r].
    destruct (xSemaphoreTake (sem_ s) (kernel w)); cbn; auto.
  - unfold release, isConstructed. run.
    destruct (isConstructed_ s) eqn:E; cbn; [|now rewrite app_nil_r].
    destruct (xSemaphoreGive (sem_ s) (kernel w)); cbn; auto.
  - unfold releaseFromInterrupt, isConstructed. run.
    destruct (isConstructed_ s) eqn:E; cbn; [|now rewrite app_nil_r].
    destruct (xSemaphoreGiveFromISR (sem_ s) pdFALSE (kernel w)); cbn; auto.
  - rewrite getCount_calls_kernel. cbn. auto.
  - cbn. now rewrite app_nil_r.
Qed.

Lemma sem_exec_ops_frame (os : list Op) (x : t * World K) :
  let y := exec_ops os x in
  isConstructed_ (fst y) = isConstructed_ (fst x) /\
  sem_ (fst y) = sem_ (fst x) /\
  trace (snd y) =
    trace (snd x) ++
    flat_map (SemaphoreRun.calls (isConstructed_ (fst x)) (sem_ (fst x))) os.
Proof.
  revert x. induction os as [|o os IH]; intros x; cbn.
  - now rewrite app_nil_r.
  - unfold exec_ops in IH. cbn in IH.
    destruct (IH (exec_op o x)) as (Hc & Hs & Ht).
    destruct (sem_exec_op_frame o x) as (Hc1 & Hs1 & Ht1).
    rewrite Hc, Hs, Ht, Hc1, Hs1, Ht1, app_assoc. auto.
Qed.

(** The constructor body, started without a handle, leaves a valid object
    with a handle or an invalid one without, and a clear woken flag. *)
Lemma constructed_handle (init : t) (w : World K) :
  sem_ init = NULL ->
  let x := constructed init w in
  isConstructed_ (fst x) = negb (is_null (sem_ (fst x))) /\
  xHigherPriorityTaskWoken_ (fst x) = xHigherPriorityTaskWoken_ init.
Proof.
  destruct init as [c pp mm h0 ty fl]. cbn [sem_]. intros ->.
  unfold constructed, construct, setConstructed, isConstructed, initialize. run.
  destruct c; cbn; auto.
  destruct (pp <? 0); cbn; auto.
  destruct (mm <? 0); cbn; auto.
  destruct (mm >? MAX_PERMITS); cbn; auto.
  destruct ty; run.
  - destruct (xSemaphoreCreateCountingStatic _ _ _) as [h k1]; cbn.
    destruct (is_null h) eqn:E; cbn; rewrite E; auto.
  - destruct (xSemaphoreCreateBinaryStatic _) as [h k1]; cbn.
    destruct (is_null h) eqn:E; cbn; rewrite E; auto.
Qed.

(** What either constructor leaves. *)
Lemma ctor_handle (base : bool) (ty : Type_) (p m : Z) (w : World K)
    (x : t * World K) :
  x = ctor_type base ty p w \/ x = ctor_permits base p m w ->
  isConstructed_ (fst x) = negb (is_null (sem_ (fst x))) /\
  xHigherPriorityTaskWoken_ (fst x) = pdFALSE.
Proof.
  intros [-> | ->]; unfold ctor_type, ctor_permits;
    now apply constructed_handle.
Qed.

(** On an invalid semaphore no operation writes the woken flag. *)
Lemma invalid_keeps_flag (o : Op) (x : t * World K) :
  isConstructed_ (fst x) = false ->
  xHigherPriorityTaskWoken_ (fst (exec_op o x)) =
  xHigherPriorityTaskWoken_ (fst x).
Proof.
  intros H. destruct o; try (apply exec_op_keeps_flag; reflexivity).
  destruct x as [s w]. cbn [exec_op fst snd] in *. unfold forget.
  now rewrite releaseFromInterrupt_gate.
Qed.

(** X3.  Whichever constructor built it, a semaphore is valid exactly when
    its handle is not null, and no operation changes validity or handle.
    The calls that reach the kernel are: for a valid semaphore one
    [xSemaphoreTake], [xSemaphoreGive], [xSemaphoreGiveFromISR] or
    [uxSemaphoreGetCount] on its handle per [acquire], [release],
    [releaseFromInterrupt] or [getCount]; for an invalid one only
    [uxSemaphoreGetCount] on the null handle, once per [getCount]. *)
Theorem semaphore_calls_on_its_handle
    (base : bool) (ty : Type_) (p m : Z) (w : World K)
    (x : t * World K) (os : list Op) :
  x = ctor_type base ty p w \/ x = ctor_permits base p m w ->
  let y := exec_ops os x in
  isConstructed_ (fst x) = negb (is_null (sem_ (fst x))) /\
  isConstructed_ (fst y) = isConstructed_ (fst x) /\
  sem_ (fst y) = sem_ (fst x) /\
  trace (snd y) =
    trace (snd x) ++
    flat_map (SemaphoreRun.calls (isConstructed_ (fst x)) (sem_ (fst x))) os.
Proof.
  intros Hx y.
  destruct (ctor_handle base ty p m w x Hx) as [Hv _].
  destruct (sem_exec_ops_frame os x) as (Hc & Hs & Ht).
  auto.
Qed.

(** X4.  The destructor, after any use, deletes the kernel semaphore exactly
    when the constructor obtained one: one [vSemaphoreDelete] on the handle
    of a valid semaphore, no kernel call for an invalid one. *)
Theorem semaphore_destructor_deletes_what_was_created
    (base : bool) (ty : Type_) (p m : Z) (w : World K)
    (x : t * World K) (os : list Op) :
  x = ctor_type base ty p w \/ x = ctor_permits base p m w ->
  let y := exec_ops os x in
  trace (world (dtor (fst y) (snd y))) =
    trace (snd y) ++
    (if isConstructed_ (fst x) then [VSemaphoreDelete (sem_ (fst x))] else []) /\
  (isConstructed_ (fst x) = false -> world (dtor (fst y) (snd y)) = snd y).
Proof.
  intros Hx y.
  destruct (ctor_handle base ty p m w x Hx) as [Hv _].
  destruct (sem_exec_ops_frame os x) as (_ & Hs & _).
  fold y in Hs. unfold dtor, deinitialize. run. rewrite Hs, Hv.
  destruct (is_null (sem_ (fst x))); cbn.
  - split; [now rewrite app_nil_r | reflexivity].
  - destruct (vSemaphoreDelete _ _); cbn. split; [reflexivity | discriminate].
Qed.

(** X5.  With permits and maximum in [0, MAX_PERMITS] the kernel is asked for
    a counting semaphore with exactly these numbers, also when the permits
    exceed the maximum: the constructor does not compare the two.  The
    constructor by type asks for [MAX_PERMITS] as maximum, and for a binary
    semaphore without any number. *)
Theorem semaphore_creation_arguments (p m : Z) (w : World K) :
  0 <= p <= MAX_PERMITS ->
  0 <= m <= MAX_PERMITS ->
  trace (snd (ctor_permits true p m w)) =
    trace w ++ [XSemaphoreCreateCountingStatic m p] /\
  trace (snd (ctor_type true TYPE_COUNTING p w)) =
    trace w ++ [XSemaphoreCreateCountingStatic MAX_PERMITS p] /\
  trace (snd (ctor_type true TYPE_BINARY p w)) =
    trace w ++ [XSemaphoreCreateBinaryStatic].
Proof.
  intros Hp Hm.
  assert (to_UBaseType p = p) as Ep
    by (unfold to_UBaseType, MAX_PERMITS in *; apply Z.mod_small; lia).
  assert (to_UBaseType m = m) as Em
    by (unfold to_UBaseType, MAX_PERMITS in *; apply Z.mod_small; lia).
  assert ((p <? 0) = false) as Hp0 by (apply Z.ltb_ge; lia).
  assert ((m <? 0) = false) as Hm0 by (apply Z.ltb_ge; lia).
  assert ((m >? MAX_PERMITS) = false) as Hm1
    by (rewrite Z.gtb_ltb; apply Z.ltb_ge; lia).
  unfold ctor_permits, ctor_type, constructed, construct, setConstructed,
    isConstructed, initialize.
  assert ((MAX_PERMITS <? 0) = false) as HM0 by reflexivity.
  assert ((MAX_PERMITS >? MAX_PERMITS) = false) as HM1 by reflexivity.
  run.
  repeat first
    [ rewrite Hp0 | rewrite Hm0 | rewrite Hm1 | rewrite HM0 | rewrite HM1
    | progress cbn -[to_UBaseType MAX_PERMITS Z.ltb Z.gtb] ].
  rewrite Ep, Em.
  repeat split.
  - destruct (xSemaphoreCreateCountingStatic m p (kernel w)) as [h k1]; cbn.
    destruct (is_null h); reflexivity.
  - change (to_UBaseType MAX_PERMITS) with MAX_PERMITS.
    destruct (xSemaphoreCreateCountingStatic MAX_PERMITS p (kernel w))
      as [h k1]; cbn.
    destruct (is_null h); reflexivity.
  - destruct (xSemaphoreCreateBinaryStatic (kernel w)) as [h k1]; cbn.
    destruct (is_null h); reflexivity.
Qed.

(** X6.  [getCount] returns the kernel's count as it is when the count is at
    most [MAX_PERMITS]; a larger 32-bit count comes back negative, as the
    count minus 2^32. *)
Theorem getCount_cast (s : t) (w : World K) :
  let count := fst (uxSemaphoreGetCount (sem_ s) (kernel w)) in
  (0 <= count <= MAX_PERMITS -> result (getCount s w) = count) /\
  (MAX_PERMITS < count < 2 ^ 32 ->
     result (getCount s w) = count - 2 ^ 32 /\ result (getCount s w) < 0).
Proof.
  cbv zeta. rewrite getCount_calls_kernel. cbn [result fst].
  generalize (fst (uxSemaphoreGetCount (sem_ s) (kernel w))). intros c.
  unfold to_int32, MAX_PERMITS. split; intros H.
  - rewrite Z.mod_small by lia. lia.
  - assert ((c + 2 ^ 31) mod 2 ^ 32 = c + 2 ^ 31 - 2 ^ 32) as ->.
    { symmetry. apply (Z.mod_unique (c + 2 ^ 31) (2 ^ 32) 1); lia. }
    lia.
Qed.

(** X7.  [hasToSwitchContex] returns false on a semaphore that has not been
    released from an interrupt since its construction, and on an invalid
    semaphore whatever has been called on it. *)
Theorem no_switch_without_interrupt_release
    (base : bool) (ty : Type_) (p m : Z) (w : World K)
    (x : t * World K) (os : list Op) :
  x = ctor_type base ty p w \/ x = ctor_permits base p m w ->
  isConstructed_ (fst x) = false \/
  forallb (fun o => negb (is_releaseFromInterrupt o)) os = true ->
  let y := exec_ops os x in
  result (hasToSwitchContex (fst y) (snd y)) = false.
Proof.
  intros Hx Hos y.
  destruct (ctor_handle base ty p m w x Hx) as [_ Hf].
  rewrite hasToSwitchContex_reads. cbn [result fst].
  assert (xHigherPriorityTaskWoken_ (fst y) = pdFALSE) as ->; [|reflexivity].
  rewrite <- Hf. unfold y. destruct Hos as [Hinv | Hos].
  - clear Hf Hx y. revert x Hinv.
    induction os as [|o os IH]; intros x Hinv; cbn; [reflexivity|].
    unfold exec_ops in IH. rewrite IH.
    + now apply invalid_keeps_flag.
    + now rewrite exec_op_validity.
  - now apply exec_ops_keep_flag.
Qed.

End SemaphoreRunFacts.

(** ** Thread: what holds in every state a thread can reach *)

Section ThreadRunFacts.

Context {K : Type} {rtos : FreeRTOS K} {cfg : ThreadConfig}.
Import ThreadResource.

(** The entry function and the loop of [join] write nothing but the
    status. *)
Lemma start_thread_keeps (x : t) (w : World K) :
  let y := object (start_thread x w) in
  task_ y = task_ x /\ priority_ y = priority_ x.
Proof.
  unfold start_thread, isConstructed. run.
  destruct (isConstructed_ x); cbn.
  - destruct (task_ x) as [task|] eqn:Et; cbn.
    + destruct (task_isConstructed task); cbn.
      * destruct (task_start task (kernel w)); cbn.
        destruct (vTaskSuspend NULL _); cbn. auto.
      * destruct (vTaskSuspend NULL _); cbn. auto.
    + destruct (vTaskSuspend NULL _); cbn. auto.
  - destruct (vTaskSuspend NULL _); cbn. auto.
Qed.

Lemma join_loop_keeps (fuel : nat) (x : t) (w : World K) :
  let y := object (join_loop fuel x w) in
  task_ y = task_ x /\ priority_ y = priority_ x.
Proof.
  revert x w. induction fuel as [|n IH]; intros x w; cbn [join_loop]; run.
  - destruct (Status_eqb (status_ x) STATUS_DEAD); cbn; auto.
  - destruct (Status_eqb (status_ x) STATUS_DEAD); cbn; auto.
    destruct (taskYIELD (kernel w)) as [ran k1]; cbn.
    destruct ran.
    + match goal with
      | |- context [start_thread x ?w1] =>
          pose proof (start_thread_keeps x w1) as Hs;
          destruct (start_thread x w1) as [[u x1] w2]
      end.
      cbn in Hs. destruct Hs as (Ht & Hp).
      specialize (IH x1 w2). cbn in IH. destruct IH as (Ht' & Hp').
      rewrite Ht', Hp'. auto.
    + apply IH.
Qed.

(** One operation keeps validity and task, and changes the priority only
    to an accepted one. *)
Lemma thread_exec_op_keeps (o : Op) (x : t * World K) :
  let y := exec_op o x in
  isConstructed_ (fst y) = isConstructed_ (fst x) /\
  task_ (fst y) = task_ (fst x) /\
  (priority_ (fst y) = priority_ (fst x) \/
   isPriority (priority_ (fst y)) = true).
Proof.
  destruct x as [x w]. destruct o; cbn [exec_op fst snd]; unfold forget;
    cbn [fst snd].
  - rewrite execute_cases.
    destruct (isConstructed_ x && Status_eqb (status_ x) STATUS_NEW); auto.
    cbv zeta. destruct (is_null _); cbn; auto.
  - rewrite join_cases.
    destruct (isConstructed_ x && Status_eqb (status_ x) STATUS_RUNNABLE); auto.
    destruct (join_loop_frame fuel x w) as (_ & Hc & _).
    destruct (join_loop_keeps fuel x w) as (Ht & Hp). auto.
  - rewrite getPriority_cases. auto.
  - rewrite setPriority_cases.
    destruct (isConstructed_ x) eqn:Ec; cbn [andb]; auto.
    destruct (isPriority priority) eqn:Ep; auto.
    destruct (status_ x); cbn; auto.
  - destruct (start_thread_frame x w) as (_ & Hc & _).
    destruct (start_thread_keeps x w) as (Ht & Hp). auto.
  - rewrite dtor_cases. destruct (negb (is_null (thread_ x))); cbn; auto.
Qed.

(** Facts that hold in every reachable state. *)
Lemma reachable_keeps (x : t * World K) :
  reachable x ->
  ThreadRun.has_task (fst x) /\
  (isConstructed_ (fst x) = true -> PRIORITY_MAX < configMAX_PRIORITIES) /\
  (isPriority PRIORITY_NORM = true -> isPriority (priority_ (fst x)) = true).
Proof.
  induction 1 as [base task w | o x Hr IH He].
  - unfold ThreadRun.has_task.
    unfold ctor, construct, setConstructed, isConstructed. run.
    destruct base; cbn; [|repeat split; auto; discriminate].
    destruct (Z.geb_spec PRIORITY_MAX configMAX_PRIORITIES); cbn;
      [repeat split; auto; discriminate|].
    destruct (task_isConstructed task) eqn:Et; cbn;
      [|repeat split; auto; discriminate].
    repeat split; auto. intros _. eauto.
  - destruct IH as (Htask & Hmax & Hprio).
    destruct (thread_exec_op_keeps o x) as (Hc & Ht & Hp).
    unfold ThreadRun.has_task in *. rewrite Hc, Ht.
    repeat split; auto.
    intros Hn. destruct Hp as [-> | Hp]; auto.
Qed.

Lemma reaches_reachable (x y : t * World K) :
  reachable x -> ThreadRun.reaches x y -> reachable y.
Proof.
  intros Hx. induction 1 as [|o y Hr IH He]; [exact Hx|].
  now apply reachable_op.
Qed.

(** X8.  When [PRIORITY_NORM] is an accepted priority, the stored priority
    of a thread is an accepted priority in every state the thread can
    reach, so [getPriority] returns an accepted priority on a valid thread
    and [PRIORITY_WRONG] on an invalid one. *)
Theorem priority_stays_accepted (x : t * World K) :
  isPriority PRIORITY_NORM = true ->
  reachable x ->
  isPriority (priority_ (fst x)) = true /\
  (isConstructed_ (fst x) = true ->
     isPriority (result (getPriority (fst x) (snd x))) = true) /\
  (isConstructed_ (fst x) = false ->
     result (getPriority (fst x) (snd x)) = PRIORITY_WRONG).
Proof.
  intros Hn Hr. destruct (reachable_keeps x Hr) as (_ & _ & Hp).
  rewrite getPriority_cases. cbn [result fst].
  repeat split; auto; intros ->; auto.
Qed.

(** X9.  [getPriority] after [setPriority p] on a valid thread returns [p]
    when [p] is accepted and the thread is not [STATUS_DEAD]; when [p] is
    refused or the thread is dead it returns what it returned before. *)
Theorem getPriority_after_setPriority (p : Z) (x : t) (w : World K) :
  isConstructed_ x = true ->
  let r := setPriority p x w in
  (isPriority p = true -> status_ x <> STATUS_DEAD ->
     result (getPriority (object r) (world r)) = p) /\
  (isPriority p = false \/ status_ x = STATUS_DEAD ->
     result (getPriority (object r) (world r)) = result (getPriority x w)).
Proof.
  intros Hc. cbv zeta. rewrite setPriority_cases, Hc. cbn [andb].
  split.
  - intros -> Hs. destruct (status_ x) eqn:Es; [| |congruence];
      rewrite getPriority_cases; cbn; now rewrite Hc.
  - intros [-> | ->]; [reflexivity|].
    destruct (isPriority p); reflexivity.
Qed.

(** X10.  With non-negative priority levels, the idle level not above
    [PRIORITY_MAX], an accepted [PRIORITY_NORM] and at most 2^32 kernel
    levels, a valid thread gives the kernel only priorities in
    [0, configMAX_PRIORITIES): [execute] creates the task with the stored
    priority itself, and [setPriority p] on a runnable thread passes [p]
    itself. *)
Theorem kernel_priority_in_range (x : t * World K) (p : Z) :
  0 <= PRIORITY_MIN -> 0 <= PRIORITY_IDLE <= PRIORITY_MAX ->
  configMAX_PRIORITIES <= 2 ^ 32 ->
  isPriority PRIORITY_NORM = true ->
  reachable x ->
  isConstructed_ (fst x) = true ->
  (status_ (fst x) = STATUS_NEW ->
     trace (world (execute (fst x) (snd x))) =
       trace (snd x) ++ [XTaskCreateStatic THREAD_STACK_DEPTH (priority_ (fst x))] /\
     0 <= priority_ (fst x) < configMAX_PRIORITIES) /\
  (status_ (fst x) = STATUS_RUNNABLE -> isPriority p = true ->
     trace (world (setPriority p (fst x) (snd x))) =
       trace (snd x) ++ [VTaskPrioritySet (thread_ (fst x)) p] /\
     0 <= p < configMAX_PRIORITIES).
Proof.
  intros Hmin Hidle Hcfg Hnorm Hr Hc.
  destruct (reachable_keeps x Hr) as (_ & Hmax & Hprio).
  specialize (Hmax Hc). specialize (Hprio Hnorm).
  assert (forall q, isPriority q = true ->
            convertPriority q = q /\ 0 <= q < configMAX_PRIORITIES) as Hq.
  { intros q Hq. apply isPriority_spec in Hq.
    assert (0 <= q < configMAX_PRIORITIES) as Hb by lia.
    split; [|exact Hb].
    unfold convertPriority, to_UBaseType. apply Z.mod_small. lia. }
  split.
  - intros Hs. destruct (Hq _ Hprio) as [Eq Hb]. split; [|exact Hb].
    rewrite execute_cases, Hc, Hs. cbn [andb Status_eqb]. cbv zeta.
    rewrite Eq. destruct (is_null _); reflexivity.
  - intros Hs Hp. destruct (Hq _ Hp) as [Eq Hb]. split; [|exact Hb].
    rewrite setPriority_cases, Hc, Hp, Hs. cbn. now rewrite Eq.
Qed.

(** X11.  Construction of a thread makes no kernel call and fails exactly
    when the base is invalid, [PRIORITY_MAX] is not below
    [configMAX_PRIORITIES], or the task is not constructed.  A thread whose
    construction failed is [STATUS_DEAD] and inert: no sequence of
    operations changes the object or reaches the kernel. *)
Theorem failed_thread_is_inert
    (base : bool) (task : Task) (w : World K) (y : t * World K) :
  let x := ctor base task w in
  snd x = w /\
  (isConstructed_ (fst x) = false <->
     base = false \/ configMAX_PRIORITIES <= PRIORITY_MAX \/
     task_isConstructed task = false) /\
  (isConstructed_ (fst x) = false -> ThreadRun.reaches x y ->
     y = x /\ status_ (fst y) = STATUS_DEAD).
Proof.
  cbv zeta. destruct (ctor_state base task w) as (Hh & Hw & Hs & Hc).
  split; [exact Hw|]. split.
  - rewrite Hc.
    destruct base; cbn; [|tauto].
    destruct (Z.geb_spec PRIORITY_MAX configMAX_PRIORITIES); cbn.
    + split; [intros _; right; left; lia | reflexivity].
    + destruct (task_isConstructed task); cbn; split; intros Hyp;
        try discriminate; auto.
      destruct Hyp as [Hyp | [Hyp | Hyp]]; [discriminate | lia | discriminate].
  - intros Hinv Hr.
    assert (status_ (fst (ctor base task w)) = STATUS_DEAD) as Hd
      by (now rewrite Hs, Hinv).
    induction Hr as [|o y Hr IH He]; [auto|].
    destruct IH as [-> _].
    assert (exec_op o (ctor base task w) = ctor base task w) as ->; [|auto].
    destruct (ctor base task w) as [x w0]. cbn [fst snd] in *.
    destruct (thread_gate x w0 0 0 Hinv) as (He1 & _ & Hg & _).
    destruct o; cbn [exec_op fst snd]; unfold forget.
    + now rewrite He1.
    + rewrite join_cases, Hinv. reflexivity.
    + now rewrite Hg.
    + rewrite setPriority_cases, Hinv. reflexivity.
    + cbn in He. unfold is_null in He. rewrite Hh in He. discriminate.
    + rewrite dtor_cases. unfold is_null. rewrite Hh. reflexivity.
Qed.

(** X12.  The kernel task of a thread is created at most once: in a state
    where the thread holds a handle, and in every state reached from it,
    the handle is the same and [execute] is refused without a kernel
    call. *)
Theorem thread_starts_once (x y : t * World K) :
  reachable x ->
  thread_ (fst x) <> NULL ->
  ThreadRun.reaches x y ->
  thread_ (fst y) = thread_ (fst x) /\
  execute (fst y) (snd y) = (false, fst y, snd y).
Proof.
  intros Hx Hh Hr.
  assert (thread_ (fst y) = thread_ (fst x)) as Ht.
  { induction Hr as [|o y Hr IH He]; [reflexivity|].
    pose proof (reachable_started y (reaches_reachable x y Hx Hr)) as Hst.
    destruct (exec_op_frame o y)
      as [(_ & E) | [(_ & E & _) | (Hs & _ & _)]]; try congruence.
    exfalso. apply Hst; [|exact Hs].
    unfold is_null. apply Z.eqb_neq. congruence. }
  split; [exact Ht|].
  pose proof (reachable_started y (reaches_reachable x y Hx Hr)) as Hst.
  rewrite execute_cases.
  destruct (Status_eqb (status_ (fst y)) STATUS_NEW) eqn:Es.
  - exfalso. apply Status_eqb_eq in Es. apply Hst; [|exact Es].
    unfold is_null. apply Z.eqb_neq. congruence.
  - now rewrite andb_false_r.
Qed.

End ThreadRunFacts.

(** ** Thread: the entry function and [join] *)

Section ThreadJoinFacts.

Context {K : Type} {rtos : FreeRTOS K} {cfg : ThreadConfig}.
Import ThreadResource.

(** The entry function on a valid thread that holds a valid task. *)
Lemma start_thread_runs (x : t) (w : World K) (task : Task) :
  isConstructed_ x = true ->
  task_ x = Some task -> task_isConstructed task = true ->
  start_thread x w =
  (tt, set_status_ STATUS_DEAD x,
   {| kernel := snd (vTaskSuspend NULL (snd (task_start task (kernel w))));
      trace := trace w ++ [TaskStart; VTaskSuspend NULL] |}).
Proof.
  destruct x as [c tk st pr th]. cbn [isConstructed_ task_].
  intros -> -> Hv. unfold start_thread, isConstructed. run.
  cbn. rewrite Hv. cbn.
  destruct (task_start task (kernel w)) as [[] k1]; cbn.
  destruct (vTaskSuspend NULL k1) as [[] k2]; cbn.
  now rewrite <- app_assoc.
Qed.

(** The entry function on an invalid thread. *)
Lemma start_thread_skips (x : t) (w : World K) :
  isConstructed_ x = false ->
  start_thread x w =
  (tt, x,
   {| kernel := snd (vTaskSuspend NULL (kernel w));
      trace := trace w ++ [VTaskSuspend NULL] |}).
Proof.
  intros Hc. unfold start_thread, isConstructed. run. rewrite Hc. cbn.
  now destruct (vTaskSuspend NULL (kernel w)) as [[] k1].
Qed.

(** X13.  In every state a thread can reach, the entry function given to
    the kernel ends by suspending the calling task; on a valid thread it
    first runs the user's task once and leaves the thread [STATUS_DEAD], on
    an invalid thread, and for a null argument, it runs nothing and changes
    nothing. *)
Theorem entry_function_runs_task_once (x : t * World K) :
  reachable x ->
  let r := start (Some (fst x)) (snd x) in
  trace (snd r) =
    trace (snd x) ++
    (if isConstructed_ (fst x) then [TaskStart; VTaskSuspend NULL]
     else [VTaskSuspend NULL]) /\
  (isConstructed_ (fst x) = true ->
     fst r = Some (set_status_ STATUS_DEAD (fst x))) /\
  (isConstructed_ (fst x) = false -> fst r = Some (fst x)) /\
  (fst (start None (snd x)) = None /\
   trace (snd (start None (snd x))) = trace (snd x) ++ [VTaskSuspend NULL]).
Proof.
  intros Hr. cbv zeta.
  destruct (reachable_keeps x Hr) as (Htask & _).
  destruct x as [x w]. cbn [fst snd] in *. unfold start.
  destruct (isConstructed_ x) eqn:Hc.
  - destruct (Htask Hc) as (task & Ht & Hv).
    rewrite (start_thread_runs x w task Hc Ht Hv). cbn.
    repeat split; try discriminate.
    run. now destruct (vTaskSuspend NULL (kernel w)).
  - rewrite (start_thread_skips x w Hc). cbn.
    repeat split; try discriminate.
    run. now destruct (vTaskSuspend NULL (kernel w)).
Qed.

(** How the loop of [join] can end. *)
Lemma join_loop_end (fuel : nat) (x : t) (w : World K) :
  let r := join_loop fuel x w in
  (result r = Some true /\ status_ (object r) = STATUS_DEAD) \/
  (result r = None /\ status_ (object r) <> STATUS_DEAD).
Proof.
  revert x w. induction fuel as [|n IH]; intros x w; cbn [join_loop]; run.
  - destruct (Status_eqb (status_ x) STATUS_DEAD) eqn:Es; cbn.
    + apply Status_eqb_eq in Es. auto.
    + right. split; auto. intros E. apply Status_eqb_eq in E. congruence.
  - destruct (Status_eqb (status_ x) STATUS_DEAD) eqn:Es; cbn.
    + apply Status_eqb_eq in Es. auto.
    + destruct (taskYIELD (kernel w)) as [ran k1]; cbn.
      destruct ran.
      * match goal with
        | |- context [start_thread x ?w1] =>
            destruct (start_thread x w1) as [[u x1] w2]
        end.
        apply IH.
      * apply IH.
Qed.

(** X14.  [join] on a valid runnable thread never returns false: it returns
    true, and then the thread is [STATUS_DEAD] with its handle and validity
    unchanged, or it is still polling when the fuel is over, and then the
    thread is not [STATUS_DEAD]. *)
Theorem join_returns_when_dead (fuel : nat) (x : t) (w : World K) :
  isConstructed_ x = true ->
  status_ x = STATUS_RUNNABLE ->
  let r := join fuel x w in
  thread_ (object r) = thread_ x /\
  isConstructed_ (object r) = true /\
  ((result r = Some true /\ status_ (object r) = STATUS_DEAD) \/
   (result r = None /\ status_ (object r) = STATUS_RUNNABLE)).
Proof.
  intros Hc Hs. cbv zeta. rewrite join_cases, Hc, Hs. cbn [andb Status_eqb].
  destruct (join_loop_frame fuel x w) as (Ht & Hv & Hst).
  destruct (join_loop_end fuel x w) as [(Hr & Hd) | (Hr & Hd)].
  - repeat split; auto. congruence.
  - repeat split; auto; [congruence|].
    right. split; auto. destruct Hst as [E | E]; congruence.
Qed.

(** X15.  When the kernel runs the entry function during the first yield,
    [join] on a valid runnable thread returns true after that single yield:
    the user's task has run, the thread is [STATUS_DEAD], and the calls
    made are the yield, the task and the suspension of the task. *)
Theorem join_returns_after_entry_function
    (fuel : nat) (x : t * World K) :
  reachable x ->
  isConstructed_ (fst x) = true ->
  status_ (fst x) = STATUS_RUNNABLE ->
  fst (taskYIELD (kernel (snd x))) = true ->
  let r := join (S fuel) (fst x) (snd x) in
  result r = Some true /\
  object r = set_status_ STATUS_DEAD (fst x) /\
  trace (world r) =
    trace (snd x) ++ [TaskYIELD; TaskStart; VTaskSuspend NULL].
Proof.
  intros Hr Hc Hs Hy. cbv zeta.
  destruct (reachable_keeps x Hr) as (Htask & _).
  destruct (Htask Hc) as (task & Ht & Hv).
  destruct x as [x w]. cbn [fst snd] in *.
  rewrite join_cases, Hc, Hs. cbn [andb Status_eqb join_loop].
  run. rewrite Hs. cbn [Status_eqb].
  destruct (taskYIELD (kernel w)) as [ran k1]. cbn in Hy. subst ran.
  rewrite (start_thread_runs x _ task Hc Ht Hv).
  rewrite join_loop_ends by reflexivity. cbn.
  repeat split. now rewrite <- app_assoc.
Qed.

(** X16.  Over a kernel whose yields never run the entry function, [join]
    on a valid runnable thread does not return: whatever the fuel, the loop
    is still polling, the thread is untouched, and every round was one
    yield. *)
Theorem join_polls_forever (fuel : nat) (x : t) (w : World K) :
  (forall k : K, fst (taskYIELD k) = false) ->
  isConstructed_ x = true ->
  status_ x = STATUS_RUNNABLE ->
  let r := join fuel x w in
  result r = None /\ object r = x /\
  trace (world r) = trace w ++ repeat TaskYIELD fuel.
Proof.
  intros Hy Hc Hs. cbv zeta. rewrite join_cases, Hc, Hs.
  cbn [andb Status_eqb]. clear Hc.
  revert w. induction fuel as [|n IH]; intros w; cbn [join_loop]; run;
    rewrite Hs; cbn [Status_eqb].
  - cbn. now rewrite app_nil_r.
  - pose proof (Hy (kernel w)) as Hk.
    destruct (taskYIELD (kernel w)) as [ran k1]. cbn in Hk. subst ran.
    specialize (IH {| kernel := k1; trace := trace w ++ [TaskYIELD] |}).
    cbn in IH. destruct IH as (Hr & Ho & Ht).
    repeat split; auto.
    rewrite Ht. cbn. now rewrite <- app_assoc.
Qed.

End ThreadJoinFacts.

(** ** The interrupt routines of the scheduler *)

Section SchedulerRoutineFacts.

Context {K : Type} {port : FreeRTOSPort K}.
Import SchedulerRoutine.

Lemma timer_start_calls (r : t) (s : Port) :
  snd (timer_start r s) =
  snd s ++ XTaskIncrementTick ::
    (if fst (xTaskIncrementTick (fst s)) =? pdTRUE
     then [VTaskSwitchContext] else []).
Proof.
  unfold timer_start, pcall. destruct s as [k l]. cbn [fst snd].
  destruct (xTaskIncrementTick k) as [a k1]. cbn [fst snd].
  destruct (a =? pdTRUE); cbn.
  - destruct (vTaskSwitchContext k1). cbn. now rewrite <- app_assoc.
  - reflexivity.
Qed.

(** X17.  [n] timer interrupts increment the kernel tick exactly [n] times,
    whether or not the routine object is valid, and switch context at most
    [n] times; one interrupt switches context exactly when
    [xTaskIncrementTick] returned [pdTRUE]. *)
Theorem timer_ticks_once_per_interrupt (r : t) (n : nat) (s : Port) :
  let s' := interrupts timer_start r n s in
  (length (filter is_tick (snd s')) = length (filter is_tick (snd s)) + n)%nat /\
  (length (filter is_switch (snd s')) <=
     length (filter is_switch (snd s)) + n)%nat /\
  snd (timer_start r s) =
    snd s ++ XTaskIncrementTick ::
      (if fst (xTaskIncrementTick (fst s)) =? pdTRUE
       then [VTaskSwitchContext] else []).
Proof.
  cbv zeta. split; [|split]; [| |apply timer_start_calls].
  - revert s. induction n as [|n IH]; intros s; cbn [interrupts]; [lia|].
    rewrite IH, timer_start_calls, filter_app, length_app.
    destruct (_ =? pdTRUE); cbn; lia.
  - revert s. induction n as [|n IH]; intros s; cbn [interrupts]; [lia|].
    etransitivity; [apply IH|].
    rewrite timer_start_calls, filter_app, length_app.
    destruct (_ =? pdTRUE); cbn; lia.
Qed.

(** X18.  [n] supervisor-call interrupts switch context exactly [n] times
    and do nothing else, whether or not the routine object is valid. *)
Theorem svcall_switches_once_per_interrupt (r : t) (n : nat) (s : Port) :
  snd (interrupts svcall_start r n s) = snd s ++ repeat VTaskSwitchContext n.
Proof.
  revert s. induction n as [|n IH]; intros s; cbn [interrupts repeat].
  - now rewrite app_nil_r.
  - rewrite IH. unfold svcall_start, pcall. destruct s as [k l].
    cbn [fst snd]. destruct (vTaskSwitchContext k). cbn.
    now rewrite <- app_assoc.
Qed.

End SchedulerRoutineFacts.

(** ** Instances of the further properties *)

(** X3 on [overfull_semaphore] after [acquire], [getCount] and
    [release]. *)
Lemma semaphore_calls_on_its_handle_witness :
  SemaphoreResource.isConstructed_ (fst overfull_semaphore) = true /\
  trace (snd (SemaphoreResource.exec_ops
                [SemaphoreResource.OpAcquire; SemaphoreResource.OpGetCount;
                 SemaphoreResource.OpRelease] overfull_semaphore)) =
    [XSemaphoreCreateCountingStatic 2 5; XSemaphoreTake 7;
     UxSemaphoreGetCount 7; XSemaphoreGive 7].
Proof.
  split; [reflexivity|].
  destruct (semaphore_calls_on_its_handle true SemaphoreResource.TYPE_COUNTING
              5 2 (boot [7; 1; 1; 1; 3]) overfull_semaphore
              [SemaphoreResource.OpAcquire; SemaphoreResource.OpGetCount;
               SemaphoreResource.OpRelease])
    as (_ & _ & _ & H); [right; reflexivity|].
  exact H.
Defined.

(** X4 on [negative_semaphore], which is invalid. *)
Lemma semaphore_destructor_witness :
  let y := SemaphoreResource.exec_ops [SemaphoreResource.OpAcquire]
             negative_semaphore in
  world (SemaphoreResource.dtor (fst y) (snd y)) = snd y.
Proof.
  destruct (semaphore_destructor_deletes_what_was_created true
              SemaphoreResource.TYPE_COUNTING (-1) 1 (boot [7])
              negative_semaphore [SemaphoreResource.OpAcquire])
    as (_ & H); [right; reflexivity|].
  apply H. reflexivity.
Defined.

(** X5 at permits [5] and maximum [2]. *)
Lemma semaphore_creation_arguments_witness :
  0 <= 5 <= SemaphoreResource.MAX_PERMITS /\
  0 <= 2 <= SemaphoreResource.MAX_PERMITS /\
  trace (snd (SemaphoreResource.ctor_permits true 5 2 (boot [7]))) =
    trace (boot [7]) ++ [XSemaphoreCreateCountingStatic 2 5].
Proof.
  assert (0 <= 5 <= SemaphoreResource.MAX_PERMITS) as H5
    by (unfold SemaphoreResource.MAX_PERMITS; lia).
  assert (0 <= 2 <= SemaphoreResource.MAX_PERMITS) as H2
    by (unfold SemaphoreResource.MAX_PERMITS; lia).
  split; [exact H5|]. split; [exact H2|].
  destruct (semaphore_creation_arguments 5 2 (boot [7]) H5 H2) as [H _].
  exact H.
Defined.

(** X6 for a kernel count of [7] and of [2^32 - 1]. *)
Lemma getCount_cast_witness :
  result (SemaphoreResource.getCount (fst overfull_semaphore) (boot [7])) = 7 /\
  result (SemaphoreResource.getCount (fst overfull_semaphore)
            (boot [4294967295])) < 0.
Proof.
  split.
  - destruct (getCount_cast (fst overfull_semaphore) (boot [7])) as [H _].
    apply H. vm_compute. split; discriminate.
  - destruct (getCount_cast (fst overfull_semaphore) (boot [4294967295]))
      as [_ H].
    apply H. vm_compute. split; reflexivity.
Defined.

(** X7 on [negative_semaphore] after an interrupt release. *)
Lemma no_switch_witness :
  let y := SemaphoreResource.exec_ops
             [SemaphoreResource.OpReleaseFromInterrupt] negative_semaphore in
  result (SemaphoreResource.hasToSwitchContex (fst y) (snd y)) = false.
Proof.
  apply (no_switch_without_interrupt_release true
           SemaphoreResource.TYPE_COUNTING (-1) 1 (boot [7])
           negative_semaphore [SemaphoreResource.OpReleaseFromInterrupt]).
  - right. reflexivity.
  - left. reflexivity.
Defined.

Lemma runnable_thread_reachable : ThreadResource.reachable runnable_thread.
Proof.
  apply ThreadResource.reachable_op; [|reflexivity].
  apply ThreadResource.reachable_ctor.
Qed.

(** X8 on [runnable_thread]. *)
Lemma priority_stays_accepted_witness :
  ThreadResource.isPriority PRIORITY_NORM = true /\
  ThreadResource.isPriority
    (ThreadResource.priority_ (fst runnable_thread)) = true.
Proof.
  assert (ThreadResource.isPriority PRIORITY_NORM = true) as Hn
    by reflexivity.
  split; [exact Hn|].
  destruct (priority_stays_accepted runnable_thread Hn
              runnable_thread_reachable) as [H _].
  exact H.
Defined.

(** X9 at priority [7] on [runnable_thread]. *)
Lemma getPriority_after_setPriority_witness :
  ThreadResource.isConstructed_ (fst runnable_thread) = true /\
  let r := ThreadResource.setPriority 7 (fst runnable_thread)
             (snd runnable_thread) in
  result (ThreadResource.getPriority (object r) (world r)) = 7.
Proof.
  split; [reflexivity|]. cbv zeta.
  destruct (getPriority_after_setPriority 7 (fst runnable_thread)
              (snd runnable_thread) eq_refl) as [H _].
  apply H; [reflexivity | discriminate].
Defined.

(** X10 on [runnable_thread] at priority [7]. *)
Lemma kernel_priority_in_range_witness :
  trace (world (ThreadResource.setPriority 7 (fst runnable_thread)
                  (snd runnable_thread))) =
    trace (snd runnable_thread) ++ [VTaskPrioritySet 5 7] /\
  0 <= 7 < configMAX_PRIORITIES.
Proof.
  assert (0 <= PRIORITY_MIN) as H1 by (vm_compute; discriminate).
  assert (0 <= PRIORITY_IDLE <= PRIORITY_MAX) as H2
    by (vm_compute; split; discriminate).
  assert (configMAX_PRIORITIES <= 2 ^ 32) as H3 by (vm_compute; discriminate).
  assert (ThreadResource.isPriority PRIORITY_NORM = true) as H4
    by reflexivity.
  assert (ThreadResource.isConstructed_ (fst runnable_thread) = true) as H5
    by reflexivity.
  destruct (kernel_priority_in_range runnable_thread 7 H1 H2 H3 H4
              runnable_thread_reachable H5) as [_ H].
  apply H; reflexivity.
Defined.

(** X11 for a task that is not constructed. *)
Lemma failed_thread_is_inert_witness :
  let x := ThreadResource.ctor true (ThreadResource.mkTask false silent)
             (boot [5]) in
  ThreadResource.isConstructed_ (fst x) = false /\
  ThreadResource.exec_op ThreadResource.OpExecute x = x.
Proof.
  cbv zeta. split; [reflexivity|].
  destruct (failed_thread_is_inert true (ThreadResource.mkTask false silent)
              (boot [5])
              (ThreadResource.exec_op ThreadResource.OpExecute
                 (ThreadResource.ctor true
                    (ThreadResource.mkTask false silent) (boot [5]))))
    as (_ & _ & H).
  destruct H as [H _]; [reflexivity | | exact H].
  apply ThreadRun.reaches_op; [apply ThreadRun.reaches_here | reflexivity].
Defined.

(** X12 on [runnable_thread] after a change of priority. *)
Lemma thread_starts_once_witness :
  ThreadResource.thread_ (fst runnable_thread) <> NULL /\
  let y := ThreadResource.exec_op (ThreadResource.OpSetPriority 7)
             runnable_thread in
  ThreadResource.execute (fst y) (snd y) = (false, fst y, snd y).
Proof.
  assert (ThreadResource.thread_ (fst runnable_thread) <> NULL) as Hh
    by (vm_compute; discriminate).
  split; [exact Hh|]. cbv zeta.
  apply (thread_starts_once runnable_thread
           (ThreadResource.exec_op (ThreadResource.OpSetPriority 7)
              runnable_thread)
           runnable_thread_reachable Hh).
  apply ThreadRun.reaches_op; [apply ThreadRun.reaches_here | reflexivity].
Defined.

(** X13 on [runnable_thread]. *)
Lemma entry_function_witness :
  trace (snd (ThreadResource.start (Some (fst runnable_thread))
                (snd runnable_thread))) =
    [XTaskCreateStatic 512 5; TaskStart; VTaskSuspend NULL].
Proof.
  destruct (entry_function_runs_task_once runnable_thread
              runnable_thread_reachable) as [H _].
  exact H.
Defined.

(** X14 on [runnable_thread], whose entry function runs during the first
    yield. *)
Lemma join_returns_when_dead_witness :
  ThreadResource.isConstructed_ (fst runnable_thread) = true /\
  ThreadResource.status_ (fst runnable_thread) =
    ThreadResource.STATUS_RUNNABLE /\
  ThreadResource.thread_
    (object (ThreadResource.join 2 (fst runnable_thread) (snd runnable_thread)))
    = 5.
Proof.
  split; [reflexivity|]. split; [reflexivity|].
  destruct (join_returns_when_dead 2 (fst runnable_thread)
              (snd runnable_thread) eq_refl eq_refl) as [H _].
  exact H.
Defined.

(** X15 on [runnable_thread]. *)
Lemma join_returns_after_entry_function_witness :
  fst (taskYIELD (kernel (snd runnable_thread))) = true /\
  result (ThreadResource.join 1 (fst runnable_thread) (snd runnable_thread))
    = Some true.
Proof.
  split; [reflexivity|].
  destruct (join_returns_after_entry_function 0 runnable_thread
              runnable_thread_reachable eq_refl eq_refl eq_refl) as [H _].
  exact H.
Defined.

(** X16 on [starving_thread] with four rounds. *)
Lemma join_polls_forever_witness :
  (forall k : unit, fst (taskYIELD k) = false) /\
  result (ThreadResource.join 4 (fst starving_thread) (snd starving_thread))
    = None.
Proof.
  assert (forall k : unit, fst (taskYIELD k) = false) as Hk
    by (intros k; reflexivity).
  split; [exact Hk|].
  destruct (join_polls_forever 4 (fst starving_thread) (snd starving_thread)
              Hk eq_refl eq_refl) as [H _].
  exact H.
Defined.

(** ** The race between [execute] and the entry function *)

Section ThreadPreemptFacts.

Context {K : Type} {rtos : FreeRTOS K} {cfg : ThreadConfig}.

(** Without the preemption the two halves are [execute]. *)
Lemma execute_on_kernel_quiet (x : ThreadResource.t) (w : World K) :
  ThreadPreempt.execute_on_kernel false x w = ThreadResource.execute x w.
Proof.
  unfold ThreadPreempt.execute_on_kernel, ThreadPreempt.execute_create,
    ThreadPreempt.execute_finish, ThreadResource.execute,
    ThreadResource.isConstructed.
  run.
  destruct (ThreadResource.isConstructed_ x); cbn; [|reflexivity].
  destruct (ThreadResource.Status_eqb (ThreadResource.status_ x)
              ThreadResource.STATUS_NEW); cbn; [|reflexivity].
  destruct (xTaskCreateStatic _ _ _) as [h k1]; cbn.
  destruct (is_null h); reflexivity.
Qed.

(** On any kernel: when the created task preempts [execute] on a valid new
    thread, the entry function leaves [STATUS_DEAD] and the rest of
    [execute] then writes [STATUS_RUNNABLE] over it. *)
Lemma preempted_execute_revives (x : ThreadResource.t * World K) :
  ThreadResource.reachable x ->
  ThreadResource.isConstructed_ (fst x) = true ->
  ThreadResource.status_ (fst x) = ThreadResource.STATUS_NEW ->
  fst (xTaskCreateStatic ThreadResource.THREAD_STACK_DEPTH
         (ThreadResource.convertPriority (ThreadResource.priority_ (fst x)))
         (kernel (snd x))) <> NULL ->
  let r1 := ThreadPreempt.execute_create true (fst x) (snd x) in
  let r2 := ThreadPreempt.execute_finish (result r1) (object r1) (world r1) in
  ThreadResource.status_ (object r1) = ThreadResource.STATUS_DEAD /\
  ThreadResource.status_ (object r2) = ThreadResource.STATUS_RUNNABLE /\
  result r2 = true.
Proof.
  intros Hr Hc Hs Hh. cbv zeta.
  destruct (reachable_keeps x Hr) as (Htask & _).
  destruct (Htask Hc) as (task & Ht & Hv).
  destruct x as [x w]. cbn [fst snd] in *.
  assert (ThreadPreempt.execute_create true x w =
          (Some (fst (xTaskCreateStatic ThreadResource.THREAD_STACK_DEPTH
                        (ThreadResource.convertPriority
                           (ThreadResource.priority_ x)) (kernel w))),
           object (ThreadResource.start_thread x
                     (world (kcall (T := unit)
                        (XTaskCreateStatic ThreadResource.THREAD_STACK_DEPTH
                           (ThreadResource.convertPriority
                              (ThreadResource.priority_ x)))
                        (xTaskCreateStatic ThreadResource.THREAD_STACK_DEPTH
                           (ThreadResource.convertPriority
                              (ThreadResource.priority_ x))) tt w))),
           world (ThreadResource.start_thread x
                    (world (kcall (T := unit)
                       (XTaskCreateStatic ThreadResource.THREAD_STACK_DEPTH
                          (ThreadResource.convertPriority
                             (ThreadResource.priority_ x)))
                       (xTaskCreateStatic ThreadResource.THREAD_STACK_DEPTH
                          (ThreadResource.convertPriority
                             (ThreadResource.priority_ x))) tt w))))) as E.
  { unfold ThreadPreempt.execute_create, ThreadResource.isConstructed.
    run. rewrite Hc. cbn [negb]. rewrite Hs. cbn [ThreadResource.Status_eqb negb].
    destruct (xTaskCreateStatic _ _ _) as [h k1]. cbn [fst snd] in *.
    assert (is_null h = false) as Hn by (now apply Z.eqb_neq).
    rewrite Hn. cbn [andb negb].
    now destruct (ThreadResource.start_thread x _) as [[u x1] w1]. }
  rewrite E. clear E.
  rewrite (start_thread_runs x _ task Hc Ht Hv).
  cbn [result object world fst snd].
  unfold ThreadPreempt.execute_finish. run.
  assert (is_null (fst (xTaskCreateStatic ThreadResource.THREAD_STACK_DEPTH
            (ThreadResource.convertPriority (ThreadResource.priority_ x))
            (kernel w))) = false) as Hn by (now apply Z.eqb_neq).
  rewrite Hn. cbn. auto.
Qed.

End ThreadPreemptFacts.

(** C4.  On a preemptive kernel the status leaves the lifecycle:
    [new_thread] is valid and [STATUS_NEW]; the task created by [execute]
    runs before [xTaskCreateStatic] returns, its entry function runs the
    user's task and writes [STATUS_DEAD] while the thread still has no
    handle; [execute] then stores the handle, writes [STATUS_RUNNABLE] over
    [STATUS_DEAD] and returns true.  The finished thread stays
    [STATUS_RUNNABLE], and a [join] of fifty rounds is still polling. *)
Theorem preempted_execute_leaves_lifecycle :
  ThreadResource.isConstructed_ (fst new_thread) = true /\
  ThreadResource.status_ (fst new_thread) = ThreadResource.STATUS_NEW /\
  ThreadResource.status_ (object new_thread_created) =
    ThreadResource.STATUS_DEAD /\
  ThreadResource.thread_ (object new_thread_created) = NULL /\
  trace (world new_thread_created) =
    [XTaskCreateStatic 512 5; TaskStart; VTaskSuspend NULL] /\
  result new_thread_executed = true /\
  ThreadResource.status_ (object new_thread_executed) =
    ThreadResource.STATUS_RUNNABLE /\
  ThreadResource.thread_ (object new_thread_executed) = 5 /\
  ThreadResource.edge ThreadResource.STATUS_DEAD
    (ThreadResource.status_ (object new_thread_executed)) = false /\
  result (ThreadResource.join 50 (object new_thread_executed)
            (world new_thread_executed)) = None /\
  ThreadResource.status_
    (object (ThreadResource.join 50 (object new_thread_executed)
               (world new_thread_executed))) = ThreadResource.STATUS_RUNNABLE.
Proof. repeat split. Qed.
